(** * CHEESA chatbot server: a shallow embedding of [src/index.mjs]

    The server is one Node.js module: a start-up sequence that reads the
    process environment, and one asynchronous request handler that sets
    the CORS headers, answers preflight requests, relays chat messages to
    a generative-language provider and serves static files.

    The embedding follows the module top to bottom.  JavaScript strings
    are modelled by [string]; each character stands for one code unit
    below 256.  What the module obtains from the platform (JSON and URL
    parsing, path handling, number conversion) is collected in the class
    [Host]; what it obtains from the outside world at run time (the
    process environment, the file system, the provider) is the record
    [World].  The handler mutates the response object and may throw, so it
    lives in a state-and-exception monad [M]. *)

From Stdlib Require Import ZArith Ascii String.
From stdpp Require Import base option list strings gmap.

Local Open Scope string_scope.
Local Open Scope Z_scope.

(** ** JavaScript values that cross the wire *)

(** A thrown value.  Every throw in reach of the handler throws an
    [Error] object, of which only [message] is ever read. *)
Record exn := Error { message : string }.

(** The result of [JSON.parse].  An object lists each own property once
    (the parser keeps the last of several duplicates). *)
#[local] Set Warnings "-register-all".
Inductive json (number : Type) : Type :=
  | JNull
  | JBool (b : bool)
  | JNum (n : number)
  | JStr (s : string)
  | JArr (items : list (json number))
  | JObj (props : list (string * json number)).

Arguments JNull {number}.
Arguments JBool {number} b.
Arguments JNum {number} n.
Arguments JStr {number} s.
Arguments JArr {number} items.
Arguments JObj {number} props.

(** ** The platform *)

Class Host := {
  (** the Number type, a numeric literal, [Number(s)] and [String(n)] *)
  number : Type;
  number_of_Z : Z -> number;
  StringToNumber : string -> number;
  NumberToString : number -> string;
  (** [JSON.parse] (throws a SyntaxError) and [JSON.stringify] *)
  JSON_parse : string -> exn + json number;
  JSON_stringify : json number -> string;
  (** [new URL(input, base).pathname] (the constructor throws a TypeError) *)
  URL_pathname : string -> string -> exn + string;
  (** [path.join], [path.extname], [String.prototype.toLowerCase] *)
  path_join : list string -> string;
  path_extname : string -> string;
  toLowerCase : string -> string;
}.

Abbreviation value := (json number).

(** ** Strings *)

(** The code units below 256 that ECMAScript counts as WhiteSpace or
    LineTerminator: TAB, LF, VT, FF, CR, SP and NBSP. *)
Definition is_white_space (c : ascii) : bool :=
  let n := Z.of_nat (nat_of_ascii c) in
  ((9 <=? n) && (n <=? 13)) || (n =? 32) || (n =? 160).

Fixpoint trimStart (s : string) : string :=
  match s with
  | EmptyString => EmptyString
  | String c r => if is_white_space c then trimStart r else s
  end.

Fixpoint trimEnd (s : string) : string :=
  match s with
  | EmptyString => EmptyString
  | String c r =>
      match trimEnd r with
      | EmptyString => if is_white_space c then EmptyString else String c EmptyString
      | r' => String c r'
      end
  end.

(** [s.trim()] *)
Definition trim (s : string) : string := trimEnd (trimStart s).

(** JavaScript truthiness of a string, and of a possibly undefined one. *)
Definition truthy (s : string) : bool := negb (bool_decide (s = "")).

Definition truthy_opt (o : option string) : bool :=
  match o with
  | Some s => truthy s
  | None => false
  end.

(** [o || d] for [o] a string or undefined. *)
Definition or_else (o : option string) (d : string) : string :=
  match o with
  | Some s => if truthy s then s else d
  | None => d
  end.

(** [items.join(sep)] on strings. *)
Fixpoint join (sep : string) (items : list string) : string :=
  match items with
  | [] => ""
  | [s] => s
  | s :: r => s +:+ sep +:+ join sep r
  end.

Section WithHost.
Context `{Host}.

(** [v?.k] for one of the property names the handler reads ([message],
    [conversationHistory], [role], [content]): the own property of an
    object, and undefined ([None]) on everything else, including an
    undefined [v]. *)
Fixpoint lookup_prop (k : string) (props : list (string * value)) : option value :=
  match props with
  | [] => None
  | (k', v) :: r => if bool_decide (k' = k) then Some v else lookup_prop k r
  end.

Definition get (v : option value) (k : string) : option value :=
  match v with
  | Some (JObj props) => lookup_prop k props
  | _ => None
  end.

Definition has_own (k : string) (props : list (string * value)) : bool :=
  bool_decide (is_Some (lookup_prop k props)).

(** [String(v)].  Arrays print their elements joined by commas, with null
    elements printed as the empty string.  A parsed object whose own
    [toString] property shadows the inherited method cannot be converted
    and throws a TypeError; every other object prints as
    [[object Object]]. *)
Fixpoint ToString (v : value) : exn + string :=
  match v with
  | JNull => inr "null"
  | JBool b => inr (if b then "true" else "false")
  | JNum n => inr (NumberToString n)
  | JStr s => inr s
  | JArr items =>
      let fix each (l : list value) : exn + list string :=
        match l with
        | [] => inr []
        | x :: r =>
            match (match x with JNull => inr "" | _ => ToString x end) with
            | inl e => inl e
            | inr s =>
                match each r with
                | inl e => inl e
                | inr ss => inr (s :: ss)
                end
            end
        end in
      match each items with
      | inl e => inl e
      | inr ss => inr (join "," ss)
      end
  | JObj props =>
      if has_own "toString" props
      then inl (Error "Cannot convert object to primitive value")
      else inr "[object Object]"
  end.

(** ** The outside world *)

(** One turn of a chat, as the provider's client library takes it. *)
Record Part := { text : string }.
Record Content := { role : string; parts : list Part }.

(** What [chat.sendMessage] resolves to: a response whose [text()] method
    returns the reply or throws. *)
Record Reply := { reply_text : exn + string }.

(** What the [stat] callback receives: an error with its [code], or the
    stats with the answer of [isDirectory()]. *)
Inductive stat_result :=
  | StatErr (code : string)
  | Stats (isDirectory : bool).

Record World := {
  (** [process.env] and [process.cwd()] *)
  env : gmap string string;
  cwd : string;
  (** [fs.stat] and [fs.createReadStream]: the stream emits [error], or
      it emits [open] and delivers the bytes of the file to the end *)
  stat : string -> stat_result;
  createReadStream : string -> exn + string;
  (** for a stream that emits [error]: nothing when it does so without
      having opened (a missing file), and what it had delivered before
      the error when it had emitted [open] first (a directory opens and
      then cannot be read; a file can fail part way) *)
  read_before_error : string -> option string;
  (** [model.startChat({history}).sendMessage(message)] *)
  sendMessage : list Content -> string -> exn + Reply;
}.

(** The turns the provider sees for one call: a chat session sends its
    history followed by the message as a user turn. *)
Definition turns_seen (history : list Content) (msg : string) : list Content :=
  history ++ [ {| role := "user"; parts := [ {| text := msg |} ] |} ].

Record Request := {
  method : string;
  url : option string;
  headers : gmap string string;
  (** the body stream: an [error] event, or the chunks received by [end] *)
  body_stream : exn + string;
}.

(** ** The response object and the handler monad *)

Record ServerResponse := {
  res_headers : gmap string string;
  statusCode : Z;
  (** [None] until the response is ended *)
  res_body : option string;
}.

Inductive event :=
  | ProviderCall (history : list Content) (msg : string)
  | FsStat (path : string)
  | FsRead (path : string).

(** The state of one request: the response, the events so far, and the
    bytes written to the response before its end.  The status line goes
    out with the first byte, so [statusCode] is the status the client
    gets: an assignment made after bytes have been written comes too
    late to show. *)
Record St := { res : ServerResponse; trace : list event; written : string }.

Definition M (A : Type) : Type := St -> (exn + A) * St.

#[export] Instance M_ret : MRet M := fun A a s => (inr a, s).
#[export] Instance M_bind : MBind M := fun A B f m s =>
  match m s with
  | (inr a, s') => f a s'
  | (inl e, s') => (inl e, s')
  end.

Definition throw {A} (e : exn) : M A := fun s => (inl e, s).

(** [try { m } catch (error) { h error }] *)
Definition try_catch {A} (m : M A) (h : exn -> M A) : M A := fun s =>
  match m s with
  | (inl e, s') => h e s'
  | r => r
  end.

Definition lift {A} (r : exn + A) : M A :=
  match r with
  | inl e => throw e
  | inr a => mret a
  end.

Definition modify_res (f : ServerResponse -> ServerResponse) : M unit := fun s =>
  (inr tt, {| res := f (res s); trace := trace s; written := written s |}).

Definition emit (e : event) : M unit := fun s =>
  (inr tt, {| res := res s; trace := trace s ++ [e]; written := written s |}).

(** [res.setHeader(name, value)] *)
Definition setHeader (name val : string) : M unit :=
  modify_res (fun r =>
    {| res_headers := <[name := val]> (res_headers r);
       statusCode := statusCode r; res_body := res_body r |}).

(** [res.statusCode = code] *)
Definition set_statusCode (code : Z) : M unit := fun s =>
  if bool_decide (written s = "")
  then
    modify_res (fun r =>
      {| res_headers := res_headers r; statusCode := code; res_body := res_body r |}) s
  else (inr tt, s).

(** [res.write(chunk)], as [stream.pipe(res)] does for the bytes a
    stream delivers before it fails *)
Definition write (chunk : string) : M unit := fun s =>
  (inr tt, {| res := res s; trace := trace s; written := written s +:+ chunk |}).

(** [res.writeHead(code, extra)]; the headers of [extra] override those
    set before *)
Definition writeHead (code : Z) (extra : list (string * string)) : M unit :=
  modify_res (fun r =>
    {| res_headers := foldl (fun m kv => <[kv.1 := kv.2]> m) (res_headers r) extra;
       statusCode := code; res_body := res_body r |}).

(** [res.end(body)], and [stream.pipe(res)] for a stream that delivers
    [body] *)
Definition end_ (body : string) : M unit := fun s =>
  modify_res (fun r =>
    {| res_headers := res_headers r; statusCode := statusCode r;
       res_body := Some (written s +:+ body) |}) s.

(** A fresh response: no headers, status 200, not ended. *)
Definition fresh_response : ServerResponse :=
  {| res_headers := ∅; statusCode := 200; res_body := None |}.

(** ** Module constants *)

Definition systemPrompt : string :=
"You are CHEEStron, a helpful AI assistant for the Chemical Engineering Student Association (CHEESA) at KNUST. 
Your role is to provide information about:
- Chemical Engineering as a career path
- The Chemical Engineering program at KNUST
- CHEESA activities and events
- General chemical engineering concepts
- University life at KNUST

Be friendly, professional, and encouraging. If you don't know an answer, say so and suggest reaching out to CHEESA executives for more specific information.".

Definition greeting : string :=
  "I'm CHEEStron, your friendly Chemical Engineering assistant. How can I help you today?".

(** The two fixed turns that open every chat. *)
Definition system_turn : Content :=
  {| role := "user"; parts := [ {| text := systemPrompt |} ] |}.
Definition greeting_turn : Content :=
  {| role := "model"; parts := [ {| text := greeting |} ] |}.

(** MIME types for static files *)
Definition mimeTypes : list (string * string) :=
  [ (".html", "text/html");
    (".js", "text/javascript");
    (".css", "text/css");
    (".json", "application/json");
    (".png", "image/png");
    (".jpg", "image/jpeg");
    (".jpeg", "image/jpeg");
    (".gif", "image/gif");
    (".svg", "image/svg+xml");
    (".wav", "audio/wav");
    (".mp4", "video/mp4");
    (".woff", "application/font-woff");
    (".ttf", "application/font-ttf");
    (".eot", "application/vnd.ms-fontobject");
    (".otf", "application/font-otf");
    (".wasm", "application/wasm");
    (".ico", "image/x-icon");
    (".map", "application/json") ].

(** [mimeTypes[ext]] *)
Fixpoint mime_lookup (ext : string) (table : list (string * string)) : option string :=
  match table with
  | [] => None
  | (k, v) :: r => if bool_decide (k = ext) then Some v else mime_lookup ext r
  end.

(** ** Start-up *)

(** [server.listen(port, host, ...)] *)
Record Listen := { listen_port : number; listen_host : string }.

(** [Number(process.env.PORT || 3001)] *)
Definition port (e : gmap string string) : number :=
  match e !! "PORT" with
  | Some p => if truthy p then StringToNumber p else number_of_Z 3001
  | None => number_of_Z 3001
  end.

(** The top level of the module, from the first statement to
    [server.listen]: it throws, which ends the process before the server
    exists, or it reaches the call of [listen]. *)
Definition startup (e : gmap string string) : exn + Listen :=
  let port := port e in
  let apiKey := e !! "GOOGLE_AI_KEY" in
  if negb (truthy_opt apiKey)
  then inl (Error "Missing required environment variable: GOOGLE_AI_KEY")
  else inr {| listen_port := port; listen_host := "0.0.0.0" |}.

(** ** Helpers of the handler *)

(** Helper function to send file *)
Definition sendFile (w : World) (filePath contentType : string) : M unit :=
  emit (FsRead filePath);;
  match createReadStream w filePath with
  | inr bytes =>
      setHeader "Content-Type" contentType;;
      end_ bytes
  | inl err =>
      match read_before_error w filePath with
      | None =>
          set_statusCode 404;;
          end_ "Not Found"
      | Some read =>
          setHeader "Content-Type" contentType;;
          write read;;
          set_statusCode 404;;
          end_ "Not Found"
      end
  end.

(** Helper function to send JSON response *)
Definition sendJson (code : Z) (payload : value) : M unit :=
  let body := JSON_stringify payload in
  setHeader "Content-Type" "application/json; charset=utf-8";;
  set_statusCode code;;
  end_ body.

(** Helper function to read JSON from request: what the promise it
    returns settles to *)
Definition readJson (req : Request) : exn + value :=
  match body_stream req with
  | inr data => JSON_parse data
  | inl e => inl e
  end.

(** ** The chat route

    Logging to the console is left out throughout. *)

(** [typeof body?.message === 'string' ? body.message : ''] *)
Definition message_of (body : value) : string :=
  match get (Some body) "message" with
  | Some (JStr s) => s
  | _ => ""
  end.

(** [Array.isArray(body?.conversationHistory) ? body.conversationHistory : []] *)
Definition conversationHistory_of (body : value) : list value :=
  match get (Some body) "conversationHistory" with
  | Some (JArr items) => items
  | _ => []
  end.

(** [r === 'user' ? 'user' : 'model'] for [r] the value of [msg?.role] *)
Definition normalize_role (r : option value) : string :=
  match r with
  | Some (JStr s) => if bool_decide (s = "user") then "user" else "model"
  | _ => "model"
  end.

(** [String(c ?? '')] for [c] the value of [msg?.content] *)
Definition content_text (c : option value) : exn + string :=
  match c with
  | None | Some JNull => inr ""
  | Some v => ToString v
  end.

(** The callback of [conversationHistory.map]. *)
Definition history_turn (msg : value) : exn + Content :=
  match content_text (get (Some msg) "content") with
  | inl e => inl e
  | inr t =>
      inr {| role := normalize_role (get (Some msg) "role");
             parts := [ {| text := t |} ] |}
  end.

(** [conversationHistory.map(...)]: the callback runs on the elements in
    order, and the first throw abandons the rest. *)
Fixpoint history_turns (l : list value) : exn + list Content :=
  match l with
  | [] => inr []
  | msg :: r =>
      match history_turn msg with
      | inl e => inl e
      | inr c =>
          match history_turns r with
          | inl e => inl e
          | inr cs => inr (c :: cs)
          end
      end
  end.

Definition chat_route (w : World) (req : Request) : M unit :=
  try_catch
    (body ← lift (readJson req);
     let message := message_of body in
     let conversationHistory := conversationHistory_of body in
     if negb (truthy (trim message))
     then sendJson 400 (JObj [("error", JStr "Message is required")])
     else
       turns ← lift (history_turns conversationHistory);
       let chat := system_turn :: greeting_turn :: turns in
       emit (ProviderCall chat message);;
       result ← lift (sendMessage w chat message);
       text ← lift (reply_text result);
       sendJson 200 (JObj [("response", JStr text)]))
    (fun error =>
       sendJson 500 (JObj [("error", JStr "Internal server error");
                           ("details", JStr (message error))])).

(** ** The static route *)

(** The callback of [stat] runs after the handler has returned, outside
    its [try] block; nothing in it throws, so it is sequenced here with
    the rest of the request. *)
Definition static_route (w : World) (pathname ext : string) : M unit :=
  let pathname := if bool_decide (pathname = "/") then "/index.html" else pathname in
  let filePath := path_join [cwd w; "public"; pathname] in
  emit (FsStat filePath);;
  match stat w filePath with
  | StatErr code =>
      if bool_decide (code = "ENOENT")
      then
        let indexPath := path_join [cwd w; "public"; "index.html"] in
        sendFile w indexPath "text/html"
      else
        set_statusCode 500;;
        end_ "Internal Server Error"
  | Stats isDirectory =>
      if isDirectory
      then
        let indexPath := path_join [filePath; "index.html"] in
        sendFile w indexPath "text/html"
      else
        let contentType := default "application/octet-stream" (mime_lookup ext mimeTypes) in
        sendFile w filePath contentType
  end.

(** ** The request handler *)

(** The value of the Access-Control-Allow-Origin header. *)
Definition allow_origin (w : World) (req : Request) : string :=
  let origin := or_else (headers req !! "origin") "*" in
  match env w !! "VERCEL_URL" with
  | Some deployment => if truthy deployment then "https://" +:+ deployment else origin
  | None => origin
  end.

(** [new URL(req.url || '/', `http://${req.headers.host || 'localhost'}`).pathname] *)
Definition request_pathname (req : Request) : exn + string :=
  URL_pathname (or_else (url req) "/")
    ("http://" +:+ or_else (headers req !! "host") "localhost").

Definition handler (w : World) (req : Request) : M unit :=
  setHeader "Access-Control-Allow-Origin" (allow_origin w req);;
  setHeader "Access-Control-Allow-Methods" "GET, POST, OPTIONS";;
  setHeader "Access-Control-Allow-Headers" "Content-Type";;
  if bool_decide (method req = "OPTIONS")
  then
    writeHead 204 [];;
    end_ ""
  else
    try_catch
      (pathname ← lift (request_pathname req);
       let pathname := if bool_decide (pathname = "/") then "/index.html" else pathname in
       let ext := toLowerCase (path_extname pathname) in
       if bool_decide (method req = "OPTIONS")
       then
         writeHead 204 [("Access-Control-Allow-Origin", "*");
                        ("Access-Control-Allow-Methods", "GET, POST, OPTIONS");
                        ("Access-Control-Allow-Headers", "Content-Type")];;
         end_ ""
       else if bool_decide (method req = "POST") && bool_decide (pathname = "/api/chat")
       then chat_route w req
       else if bool_decide (method req = "GET")
       then static_route w pathname ext
       else
         set_statusCode 404;;
         end_ "Not Found")
      (fun error =>
         set_statusCode 500;;
         end_ "Internal Server Error").

(** ** Running one request *)

(** The handler runs on a fresh response.  It is an async function
    called by the HTTP server, which does not await it: if it throws, the
    promise it returned rejects unhandled, and the module's
    [unhandledRejection] listener calls [process.exit(1)].  [serve] runs
    [handler], in which [setHeader] accepts the allowed origin;
    [on_request] below runs the whole listener, check included. *)
Record Outcome := {
  response : ServerResponse;
  events : list event;
  exit_code : option Z;
}.

Definition serve (w : World) (req : Request) : Outcome :=
  match handler w req {| res := fresh_response; trace := []; written := "" |} with
  | (inr _, s) => {| response := res s; events := trace s; exit_code := None |}
  | (inl _, s) => {| response := res s; events := trace s; exit_code := Some 1 |}
  end.

End WithHost.

(** ** Vocabulary of the statements *)

Section Vocabulary.
Context `{Host}.

(** The three CORS headers, as the handler sets them first. *)
Definition cors_headers (w : World) (req : Request) : gmap string string :=
  <["Access-Control-Allow-Headers" := "Content-Type"]>
    (<["Access-Control-Allow-Methods" := "GET, POST, OPTIONS"]>
       (<["Access-Control-Allow-Origin" := allow_origin w req]> ∅)).

(** A response written by [sendJson]. *)
Definition json_response (w : World) (req : Request) (code : Z) (payload : value)
  : ServerResponse :=
  {| res_headers := <["Content-Type" := "application/json; charset=utf-8"]> (cors_headers w req);
     statusCode := code;
     res_body := Some (JSON_stringify payload) |}.

(** A response through which [sendFile] piped a file: the status is the
    one the response started with. *)
Definition file_response (w : World) (req : Request) (contentType bytes : string)
  : ServerResponse :=
  {| res_headers := <["Content-Type" := contentType]> (cors_headers w req);
     statusCode := 200;
     res_body := Some bytes |}.

(** The payload of the inner [catch] of the chat route. *)
Definition failure_payload (e : exn) : value :=
  JObj [("error", JStr "Internal server error"); ("details", JStr (message e))].

(** The three CORS headers are on a response, with the values the handler
    gave them. *)
Definition carries_cors (w : World) (req : Request) (r : ServerResponse) : Prop :=
  res_headers r !! "Access-Control-Allow-Origin" = Some (allow_origin w req) ∧
  res_headers r !! "Access-Control-Allow-Methods" = Some "GET, POST, OPTIONS" ∧
  res_headers r !! "Access-Control-Allow-Headers" = Some "Content-Type".

(** A step of the handler that leaves the CORS headers in place. *)
Definition keeps_cors (w : World) (req : Request) {A} (m : M A) : Prop :=
  ∀ s, carries_cors w req (res s) → carries_cors w req (res (m s).2).

(** A POST request that the handler routes to the chat endpoint. *)
Definition chat_post (req : Request) : Prop :=
  method req = "POST" ∧ request_pathname req = inr "/api/chat".

(** The file a GET request for [pathname] resolves to. *)
Definition resolved_path (w : World) (pathname : string) : string :=
  path_join [cwd w; "public"; if bool_decide (pathname = "/") then "/index.html" else pathname].

(** What one history element becomes in the prompt. *)
Definition turn_of (msg : value) (c : Content) : Prop :=
  role c = normalize_role (get (Some msg) "role") ∧
  ∃ t, content_text (get (Some msg) "content") = inr t ∧ parts c = [ {| text := t |} ].

(** What the prompt holds for one element of conversationHistory whose
    content is a string, or is missing or null: a turn with that text
    (the empty text for a missing or null content); its role is "user"
    if the element's role is the string "user", and "model" if it is
    anything else or missing. *)
Definition prompt_turn (msg : value) (c : Content) : Prop :=
  ((get (Some msg) "role" = Some (JStr "user") ∧ role c = "user") ∨
   (get (Some msg) "role" ≠ Some (JStr "user") ∧ role c = "model")) ∧
  ((∃ t, get (Some msg) "content" = Some (JStr t) ∧ parts c = [ {| text := t |} ]) ∨
   ((get (Some msg) "content" = None ∨ get (Some msg) "content" = Some JNull) ∧
    parts c = [ {| text := "" |} ])).

End Vocabulary.

(** ** The handler, route by route

    What one request comes to, written as a case analysis on the request
    and the world instead of as a run of the handler; [serve_outcome]
    below proves the two equal. *)

Section Summary.
Context `{Host}.

(** A response ended with a plain body: only the CORS headers are set. *)
Definition plain_response (w : World) (req : Request) (code : Z) (body : string)
  : ServerResponse :=
  {| res_headers := cors_headers w req; statusCode := code; res_body := Some body |}.

(** The handler returned, leaving [r] and the events [ev]. *)
Definition returned (r : ServerResponse) (ev : list event) : Outcome :=
  {| response := r; events := ev; exit_code := None |}.

Definition chat_outcome (w : World) (req : Request) : Outcome :=
  match readJson req with
  | inl e => returned (json_response w req 500 (failure_payload e)) []
  | inr body =>
      if bool_decide (trim (message_of body) = "")
      then returned (json_response w req 400 (JObj [("error", JStr "Message is required")])) []
      else
        match history_turns (conversationHistory_of body) with
        | inl e => returned (json_response w req 500 (failure_payload e)) []
        | inr turns =>
            let chat := system_turn :: greeting_turn :: turns in
            returned
              match sendMessage w chat (message_of body) with
              | inl e => json_response w req 500 (failure_payload e)
              | inr result =>
                  match reply_text result with
                  | inl e => json_response w req 500 (failure_payload e)
                  | inr text => json_response w req 200 (JObj [("response", JStr text)])
                  end
              end
              [ProviderCall chat (message_of body)]
        end
  end.

(** The file [sendFile] is asked to send for a path, by what [stat]
    reports; none after a stat error other than ENOENT. *)
Definition send_target (w : World) (p : string) : option string :=
  match stat w (resolved_path w p) with
  | StatErr code =>
      if bool_decide (code = "ENOENT")
      then Some (path_join [cwd w; "public"; "index.html"])
      else None
  | Stats true => Some (path_join [resolved_path w p; "index.html"])
  | Stats false => Some (resolved_path w p)
  end.

(** The content type [sendFile] is given for it. *)
Definition send_type (w : World) (p : string) : string :=
  match stat w (resolved_path w p) with
  | Stats false =>
      default "application/octet-stream"
        (mime_lookup
           (toLowerCase (path_extname (if bool_decide (p = "/") then "/index.html" else p)))
           mimeTypes)
  | _ => "text/html"
  end.

(** What [sendFile] leaves of the response, by what the read stream
    does: all bytes; an error before [open]; an error after [open]
    before any byte; an error after some bytes, which went out under
    the status the response had. *)
Definition sent_response (w : World) (req : Request) (target contentType : string)
  : ServerResponse :=
  match createReadStream w target with
  | inr bytes => file_response w req contentType bytes
  | inl _ =>
      match read_before_error w target with
      | None => plain_response w req 404 "Not Found"
      | Some read =>
          {| res_headers := <["Content-Type" := contentType]> (cors_headers w req);
             statusCode := if bool_decide (read = "") then 404 else 200;
             res_body := Some (read +:+ "Not Found") |}
      end
  end.

Definition static_outcome_of (w : World) (req : Request) (p : string) : Outcome :=
  match send_target w p with
  | None =>
      returned (plain_response w req 500 "Internal Server Error") [FsStat (resolved_path w p)]
  | Some target =>
      returned (sent_response w req target (send_type w p))
        [FsStat (resolved_path w p); FsRead target]
  end.

Definition outcome_of (w : World) (req : Request) : Outcome :=
  if bool_decide (method req = "OPTIONS")
  then returned (plain_response w req 204 "") []
  else
    match request_pathname req with
    | inl e => returned (plain_response w req 500 "Internal Server Error") []
    | inr p =>
        if bool_decide (method req = "POST") && bool_decide (p = "/api/chat")
        then chat_outcome w req
        else if bool_decide (method req = "GET")
        then static_outcome_of w req p
        else returned (plain_response w req 404 "Not Found") []
    end.

(** The status codes the handler writes. *)
Definition status_codes : list Z := [200; 204; 400; 404; 500].

End Summary.

(** ** The request listener, header check included

    [res.setHeader] checks the value it is given and throws on a code
    unit that may not appear in a header.  Of the values the listener
    sets, all but one are constants that pass the check; the one that
    depends on the world is the allowed origin, set by the first
    statement, which lies outside every [try].  [handler] is the listener
    from the point where that value has been accepted; [listener] is the
    whole of it. *)

Section Listener.
Context `{Host}.

(** Node's [checkInvalidHeaderChar]: a header value may hold TAB, the
    code units from 0x20 to 0x7e and those from 0x80 to 0xff. *)
Definition legal_header_char (c : ascii) : bool :=
  let n := Z.of_nat (nat_of_ascii c) in
  (n =? 9) || ((32 <=? n) && (n <=? 126)) || (128 <=? n).

Fixpoint checkInvalidHeaderChar (val : string) : bool :=
  match val with
  | EmptyString => false
  | String c r => negb (legal_header_char c) || checkInvalidHeaderChar r
  end.

(** The error [res.setHeader(name, ...)] throws. *)
Definition ERR_INVALID_CHAR (name : string) : exn :=
  let quote := String (ascii_of_nat 34) EmptyString in
  Error ("Invalid character in header content [" +:+ quote +:+ name +:+ quote +:+ "]").

Definition listener (w : World) (req : Request) : M unit :=
  if checkInvalidHeaderChar (allow_origin w req)
  then throw (ERR_INVALID_CHAR "Access-Control-Allow-Origin")
  else handler w req.

(** One request, from the listener's first statement on. *)
Definition on_request (w : World) (req : Request) : Outcome :=
  match listener w req {| res := fresh_response; trace := []; written := "" |} with
  | (inr _, s) => {| response := res s; events := trace s; exit_code := None |}
  | (inl _, s) => {| response := res s; events := trace s; exit_code := Some 1 |}
  end.

(** The constant header values of the listener. *)
Definition constant_header_values : list string :=
  [ "GET, POST, OPTIONS"; "Content-Type"; "*"; "text/html";
    "application/json; charset=utf-8"; "application/octet-stream" ]
  ++ map snd mimeTypes.

End Listener.

(** ** The chat page: a shallow embedding of the front-end script

    The script keeps the conversation in [conversationHistory] and sends
    it with every message.  Its submit handler is embedded with the page
    as explicit state; what it draws is recorded as a list of calls, and
    the network is a function from the request body to what [fetch] and
    [response.json()] settle to.  [submit] is one submit that nothing
    interrupts; [submit_begin] and [submit_settle] are the two runs it is
    made of, between which other submits can run. *)

Section Page.
Context `{Host}.

(** [ToBoolean] on numbers *)
Variable NumberToBoolean : number -> bool.

(** The truthiness of [v], for [v] a parsed value or undefined. *)
Definition ToBoolean (v : option value) : bool :=
  match v with
  | None | Some JNull => false
  | Some (JBool b) => b
  | Some (JNum n) => NumberToBoolean n
  | Some (JStr s) => truthy s
  | Some (JArr _) | Some (JObj _) => true
  end.

(** What the page did that can be seen from outside: a call of
    [addMessage] with the role and the markup of the message (the avatar
    it draws and, for the role "bot", the removal of the typing indicator
    belong to the call), a call of [showTypingIndicator], and a POST of a
    body to /api/chat.  Logging to the console is left out. *)
Inductive page_event :=
  | AddMessage (role html : string)
  | ShowTypingIndicator
  | Fetch (body : string).

Record Page := {
  conversationHistory : list value;
  (** [userInput.value] *)
  userInput : string;
  shown : list page_event;
}.

(** What [fetch] settles to: a rejection, or a response with its [ok]
    flag and what [response.json()] settles to. *)
Inductive fetch_result :=
  | FetchRejected (e : exn)
  | FetchResponse (ok : bool) (json : exn + value).

Definition P (A : Type) : Type := Page -> (exn + A) * Page.

#[export] Instance P_ret : MRet P := fun A a s => (inr a, s).
#[export] Instance P_bind : MBind P := fun A B f m s =>
  match m s with
  | (inr a, s') => f a s'
  | (inl e, s') => (inl e, s')
  end.

Definition raise {A} (e : exn) : P A := fun s => (inl e, s).

Definition attempt {A} (m : P A) (h : exn -> P A) : P A := fun s =>
  match m s with
  | (inl e, s') => h e s'
  | r => r
  end.

Definition settle {A} (r : exn + A) : P A :=
  match r with
  | inl e => raise e
  | inr a => mret a
  end.

(** Read a field of the page. *)
Definition read {A} (field : Page -> A) : P A := fun s => (inr (field s), s).

Definition draw (e : page_event) : P unit := fun s =>
  (inr tt, {| conversationHistory := conversationHistory s; userInput := userInput s;
              shown := shown s ++ [e] |}).

Definition set_history (f : list value -> list value) : P unit := fun s =>
  (inr tt, {| conversationHistory := f (conversationHistory s); userInput := userInput s;
              shown := shown s |}).

Definition set_input (v : string) : P unit := fun s =>
  (inr tt, {| conversationHistory := conversationHistory s; userInput := v;
              shown := shown s |}).

(** [{ role: r, content: c }] *)
Definition turn (r : string) (c : value) : value :=
  JObj [("role", JStr r); ("content", c)].

(** Add a message to the chat: the content is spliced into the markup as
    [String] prints it, before anything is attached to the page. *)
Definition addMessage (role : string) (content : value) : P unit :=
  printed ← settle (ToString content);
  draw (AddMessage role ("<p>" +:+ printed +:+ "</p>")).

(** Show typing indicator *)
Definition showTypingIndicator : P unit := draw ShowTypingIndicator.

(** [l.slice(0, -1)] *)
Definition slice_0_m1 {A} (l : list A) : list A := take (length l - 1) l.

(** [data.response]: a property read, which throws on null *)
Definition data_response (data : value) : exn + option value :=
  match data with
  | JNull => inl (Error "Cannot read properties of null (reading 'response')")
  | _ => inr (get (Some data) "response")
  end.

(** The body of the request for [message] with the history as it is. *)
Definition request_body (message : string) (history : list value) : string :=
  JSON_stringify (JObj [("message", JStr message); ("conversationHistory", JArr history)]).

(** Handle form submission *)
Definition submit (fetch : string -> fetch_result) : P unit :=
  value ← read userInput;
  let message := trim value in
  if negb (truthy message) then mret tt
  else
    addMessage "user" (JStr message);;
    set_input "";;
    showTypingIndicator;;
    attempt
      (set_history (fun h => (h ++ [turn "user" (JStr message)])%list);;
       history ← read conversationHistory;
       let body := request_body message history in
       draw (Fetch body);;
       match fetch body with
       | FetchRejected e => raise e
       | FetchResponse ok json =>
           if negb ok then raise (Error "Failed to get response from server")
           else
             data ← settle json;
             response ← settle (data_response data);
             if ToBoolean response
             then
               let reply := default JNull response in
               set_history (fun h => (h ++ [turn "assistant" reply])%list);;
               addMessage "bot" reply
             else mret tt
       end)
      (fun error =>
         addMessage "bot" (JStr "Sorry, I encountered an error. Please try again later.");;
         set_history slice_0_m1).

(** The handler in its two runs.  It is an async function: it runs up
    to [await fetch(...)], gives way, and resumes when the request has
    settled.  Other submits can run in between, on the same
    [conversationHistory]. *)

(** From the submit event to [await fetch]: what it returns is the body
    of the request it sent, if it sent one. *)
Definition submit_begin : P (option string) :=
  value ← read userInput;
  let message := trim value in
  if negb (truthy message) then mret None
  else
    addMessage "user" (JStr message);;
    set_input "";;
    showTypingIndicator;;
    set_history (fun h => (h ++ [turn "user" (JStr message)])%list);;
    history ← read conversationHistory;
    let body := request_body message history in
    draw (Fetch body);;
    mret (Some body).

(** From the moment the request has settled to the end of the handler.
    Nothing of the page is read or written between [await fetch] and
    [await response.json()], so the two awaits count as one. *)
Definition submit_settle (result : fetch_result) : P unit :=
  attempt
    (match result with
     | FetchRejected e => raise e
     | FetchResponse ok json =>
         if negb ok then raise (Error "Failed to get response from server")
         else
           data ← settle json;
           response ← settle (data_response data);
           if ToBoolean response
           then
             let reply := default JNull response in
             set_history (fun h => (h ++ [turn "assistant" reply])%list);;
             addMessage "bot" reply
           else mret tt
     end)
    (fun error =>
       addMessage "bot" (JStr "Sorry, I encountered an error. Please try again later.");;
       set_history slice_0_m1).

(** A page with requests in flight, and what can happen to it: the user
    types a text and submits it, or the request sent [k]-th among those
    in flight settles. *)
Record Session := { on_page : Page; in_flight : list string }.

Inductive action :=
  | Submit (typed : string)
  | Settle (k : nat) (result : fetch_result).

Definition step (x : Session) (a : action) : Session :=
  match a with
  | Submit typed =>
      match (set_input typed;; submit_begin) (on_page x) with
      | (inr (Some body), s) => {| on_page := s; in_flight := (in_flight x ++ [body])%list |}
      | (_, s) => {| on_page := s; in_flight := in_flight x |}
      end
  | Settle k result =>
      match in_flight x !! k with
      | Some _ =>
          {| on_page := (submit_settle result (on_page x)).2;
             in_flight := delete k (in_flight x) |}
      | None => x
      end
  end.

Definition run (x : Session) (actions : list action) : Session :=
  foldl step x actions.

(** The ways a request fails: [fetch] rejects, the response is not ok,
    its body is not JSON, or the JSON is null. *)
Definition failed (result : fetch_result) : Prop :=
  (∃ e, result = FetchRejected e) ∨
  (∃ json, result = FetchResponse false json) ∨
  (∃ e, result = FetchResponse true (inl e)) ∨
  result = FetchResponse true (inr JNull).

(** The page after a submit. *)
Definition after_submit (fetch : string -> fetch_result) (s : Page) : Page :=
  (submit fetch s).2.

(** A turn as the page itself writes them: the role is "user" or
    "assistant" and the content is a string. *)
Definition page_turn (v : value) : Prop :=
  ∃ r c, (r = "user" ∨ r = "assistant") ∧ v = turn r (JStr c).

(** What a turn written by the page becomes on the server: the text is
    kept, "user" stays "user" and "assistant" becomes "model". *)
Definition sent_as (v : value) (c : Content) : Prop :=
  ∃ r t,
    v = turn r (JStr t) ∧
    parts c = [ {| text := t |} ] ∧
    ((r = "user" ∧ role c = "user") ∨ (r = "assistant" ∧ role c = "model")).

(** The user turn the provider's client library makes of a message. *)
Definition user_content (msg : string) : Content :=
  {| role := "user"; parts := [ {| text := msg |} ] |}.

End Page.

(** ** A small concrete platform and world

    The lemmas below hold for every platform and every world.  To run the
    model on examples, [sample_host] gives each platform operation a small
    executable stand-in: numbers are integers or NaN, the serializer
    writes strings without escapes, the parser recognises the texts of a
    fixed table of values, and paths are joined with single slashes. *)

Module Sample.

Definition quote : string := String (ascii_of_nat 34) EmptyString.

Definition digit_of (c : ascii) : option Z :=
  let n := Z.of_nat (nat_of_ascii c) in
  if (48 <=? n) && (n <=? 57) then Some (n - 48) else None.

Fixpoint digits (acc : Z) (s : string) : option Z :=
  match s with
  | EmptyString => Some acc
  | String c r =>
      match digit_of c with
      | Some d => digits (10 * acc + d) r
      | None => None
      end
  end.

Fixpoint show_nat (fuel n : nat) (acc : string) : string :=
  match fuel with
  | O => acc
  | S fuel' =>
      let acc' := String (ascii_of_nat (48 + n mod 10)) acc in
      match (n / 10)%nat with
      | O => acc'
      | q => show_nat fuel' q acc'
      end
  end.

Definition show_number (n : option Z) : string :=
  match n with
  | None => "NaN"
  | Some z =>
      if z <? 0
      then "-" +:+ show_nat (Z.to_nat (- z)) (Z.to_nat (- z)) ""
      else show_nat (S (Z.to_nat z)) (Z.to_nat z) ""
  end.

Fixpoint stringify (v : json (option Z)) : string :=
  match v with
  | JNull => "null"
  | JBool b => if b then "true" else "false"
  | JNum n => show_number n
  | JStr s => quote +:+ s +:+ quote
  | JArr items => "[" +:+ join "," (map stringify items) +:+ "]"
  | JObj props =>
      "{" +:+ join "," (map (fun kv => quote +:+ fst kv +:+ quote +:+ ":" +:+ stringify (snd kv)) props)
          +:+ "}"
  end.

(** The request bodies the sample parser understands. *)
Definition history_ab : list (json (option Z)) :=
  [ JObj [("role", JStr "user"); ("content", JStr "a")];
    JObj [("role", JStr "system"); ("content", JStr "b")] ].

Definition bodies : list (json (option Z)) :=
  [ JObj [];
    JNull;
    JObj [("message", JStr "")];
    JObj [("message", JStr "   ")];
    JObj [("message", JNum (Some 42))];
    JObj [("message", JStr "hi")];
    JObj [("message", JStr "hi"); ("conversationHistory", JArr [])];
    JObj [("message", JStr "hi"); ("conversationHistory", JStr "none")];
    JObj [("message", JStr "hi"); ("conversationHistory", JArr history_ab)] ].

Definition hi : json (option Z) := JObj [("message", JStr "hi")].
Definition hi_with_history : json (option Z) :=
  JObj [("message", JStr "hi"); ("conversationHistory", JArr history_ab)].
Definition hi_with_text_history : json (option Z) :=
  JObj [("message", JStr "hi"); ("conversationHistory", JStr "none")].
Definition forty_two : json (option Z) := JObj [("message", JNum (Some 42))].
Definition blank : json (option Z) := JObj [("message", JStr "   ")].

Fixpoint parse_in (table : list (json (option Z))) (s : string) : exn + json (option Z) :=
  match table with
  | [] => inl (Error "Unexpected token in JSON")
  | v :: r => if bool_decide (stringify v = s) then inr v else parse_in r s
  end.

(** Everything before the first [?] or [#]. *)
Fixpoint before_query (s : string) : string :=
  match s with
  | EmptyString => EmptyString
  | String c r =>
      if bool_decide (c = "?"%char) || bool_decide (c = "#"%char)
      then EmptyString
      else String c (before_query r)
  end.

Definition pathname (input base : string) : exn + string :=
  match input with
  | String "/" _ => inr (before_query input)
  | _ => inl (Error "Invalid URL")
  end.

Fixpoint squeeze (s : string) : string :=
  match s with
  | String "/" (String "/" _ as r) => squeeze r
  | String c r => String c (squeeze r)
  | EmptyString => EmptyString
  end.

Fixpoint has_slash (s : string) : bool :=
  match s with
  | EmptyString => false
  | String c r => bool_decide (c = "/"%char) || has_slash r
  end.

Fixpoint extname (s : string) : string :=
  match s with
  | EmptyString => EmptyString
  | String c r =>
      match extname r with
      | EmptyString =>
          if bool_decide (c = "."%char) && negb (has_slash r) then s else EmptyString
      | e => e
      end
  end.

Definition lower (c : ascii) : ascii :=
  let n := nat_of_ascii c in
  if (65 <=? n)%nat && (n <=? 90)%nat then ascii_of_nat (n + 32) else c.

Fixpoint lowercase (s : string) : string :=
  match s with
  | EmptyString => EmptyString
  | String c r => String (lower c) (lowercase r)
  end.

#[export] Instance sample_host : Host := {|
  number := option Z;
  number_of_Z := Some;
  StringToNumber := fun s => if bool_decide (s = "") then Some 0 else digits 0 s;
  NumberToString := show_number;
  JSON_parse := parse_in bodies;
  JSON_stringify := stringify;
  URL_pathname := pathname;
  path_join := fun items => squeeze (join "/" items);
  path_extname := extname;
  toLowerCase := lowercase;
|}.

(** A deployment in [/srv]: an entry document, a style sheet, and a
    directory [docs] with an entry document of its own. *)
Definition files : list (string * string) :=
  [ ("/srv/public/index.html", "<html>CHEESA</html>");
    ("/srv/public/style.css", "body{}");
    ("/srv/public/docs/index.html", "<html>docs</html>") ].

Definition directories : list string := [ "/srv/public"; "/srv/public/docs" ].

Fixpoint file_lookup (p : string) (table : list (string * string)) : option string :=
  match table with
  | [] => None
  | (k, v) :: r => if bool_decide (k = p) then Some v else file_lookup p r
  end.

Definition stat_in (fs : list (string * string)) (dirs : list string) (p : string) : stat_result :=
  if bool_decide (p ∈ dirs) then Stats true
  else match file_lookup p fs with
       | Some _ => Stats false
       | None => StatErr "ENOENT"
       end.

Definition open_in (fs : list (string * string)) (p : string) : exn + string :=
  match file_lookup p fs with
  | Some bytes => inr bytes
  | None => inl (Error "ENOENT: no such file or directory")
  end.

(** A provider that answers every message with a fixed reply. *)
Definition answering (history : list Content) (msg : string) : exn + Reply :=
  inr {| reply_text := inr ("Hello from CHEEStron") |}.

(** A provider that cannot be reached. *)
Definition unreachable (history : list Content) (msg : string) : exn + Reply :=
  inl (Error "fetch failed").

(** A provider whose reply was blocked, so that [text()] throws. *)
Definition blocked (history : list Content) (msg : string) : exn + Reply :=
  inr {| reply_text := inl (Error "Text not available. Response was blocked due to SAFETY") |}.

(** A provider whose reply carries the empty text. *)
Definition silent (history : list Content) (msg : string) : exn + Reply :=
  inr {| reply_text := inr "" |}.

Definition world (p : list Content -> string -> exn + Reply) : World :=
  {| env := {[ "GOOGLE_AI_KEY" := "secret" ]};
     cwd := "/srv";
     stat := stat_in files directories;
     createReadStream := open_in files;
     read_before_error := fun _ => None;
     sendMessage := p |}.

(** The same deployment after its [public] directory was emptied. *)
Definition bare_world : World :=
  {| env := {[ "GOOGLE_AI_KEY" := "secret" ]};
     cwd := "/srv";
     stat := stat_in [] ["/srv/public"];
     createReadStream := open_in [];
     read_before_error := fun _ => None;
     sendMessage := answering |}.

(** The deployment behind a configured deployment origin. *)
Definition deployed_world : World :=
  {| env := {[ "GOOGLE_AI_KEY" := "secret"; "VERCEL_URL" := "cheesa.vercel.app" ]};
     cwd := "/srv";
     stat := stat_in files directories;
     createReadStream := open_in files;
     read_before_error := fun _ => None;
     sendMessage := answering |}.

Definition request (m u : string) (origin : option string) (body : string) : Request :=
  {| method := m;
     url := Some u;
     headers :=
       match origin with
       | Some o => {[ "host" := "localhost:3001"; "origin" := o ]}
       | None => {[ "host" := "localhost:3001" ]}
       end;
     body_stream := inr body |}.

Definition post_chat (body : json (option Z)) : Request :=
  request "POST" "/api/chat" (Some "http://localhost:3001") (stringify body).

End Sample.

(** A platform like [sample_host] whose parser understands the texts of
    the values of [table], sample networks, and a sample page. *)
Module SamplePage.
Import Sample.

Definition table_host (table : list (json (option Z))) : Host := {|
  number := option Z;
  number_of_Z := Some;
  StringToNumber := fun s => if bool_decide (s = "") then Some 0 else digits 0 s;
  NumberToString := show_number;
  JSON_parse := parse_in table;
  JSON_stringify := stringify;
  URL_pathname := pathname;
  path_join := fun items => squeeze (join "/" items);
  path_extname := extname;
  toLowerCase := lowercase;
|}.

(** Zero and NaN are the falsy numbers. *)
Definition nonzero (n : option Z) : bool :=
  match n with
  | Some z => negb (z =? 0)
  | None => false
  end.

(** What the sample page sends, as a value. *)
Definition earlier : list (json (option Z)) :=
  [ JObj [("role", JStr "user"); ("content", JStr "a")];
    JObj [("role", JStr "assistant"); ("content", JStr "b")] ].

Definition sent_payload : json (option Z) :=
  JObj [("message", JStr "hi");
        ("conversationHistory",
         JArr (earlier ++ [JObj [("role", JStr "user"); ("content", JStr "hi")]])%list)].

(** A history with elements that are not objects, and one whose content
    cannot be converted. *)
Definition odd_history : json (option Z) :=
  JObj [("message", JStr "hi");
        ("conversationHistory", JArr [JStr "user"; JNum (Some 7); JNull])].

Definition unconvertible_history : json (option Z) :=
  JObj [("message", JStr "hi");
        ("conversationHistory",
         JArr [JObj [("role", JStr "user"); ("content", JObj [("toString", JNull)])]])].

Definition page_host : Host :=
  table_host [sent_payload; odd_history; unconvertible_history; hi; blank].

(** A server that answers every request with the same reply. *)
Definition replying (reply : string) (body : string) : fetch_result (H:=page_host) :=
  FetchResponse (H:=page_host) true (inr (JObj [("response", JStr reply)])).

(** A server that answers 500. *)
Definition failing (body : string) : fetch_result (H:=page_host) :=
  FetchResponse (H:=page_host) false
    (inr (JObj [("error", JStr "Internal server error"); ("details", JStr "fetch failed")])).

(** No network. *)
Definition offline (body : string) : fetch_result (H:=page_host) :=
  FetchRejected (H:=page_host) (Error "Failed to fetch").

(** A page in the middle of a conversation, with a message typed in. *)
Definition page : Page (H:=page_host) :=
  @Build_Page page_host earlier "  hi " [].

(** The same page with only white space typed in. *)
Definition idle_page : Page (H:=page_host) :=
  @Build_Page page_host earlier "   " [].

(** A deployment whose files cannot be looked at. *)
Definition locked_world : World :=
  {| env := {[ "GOOGLE_AI_KEY" := "secret" ]};
     cwd := "/srv";
     stat := fun _ => StatErr "EACCES";
     createReadStream := open_in files;
     read_before_error := fun _ => None;
     sendMessage := answering |}.

(** A deployment whose configured origin holds a line feed. *)
Definition misconfigured_world : World :=
  {| env := {[ "GOOGLE_AI_KEY" := "secret";
               "VERCEL_URL" := "cheesa" +:+ String (ascii_of_nat 10) "vercel.app" ]};
     cwd := "/srv";
     stat := stat_in files directories;
     createReadStream := open_in files;
     read_before_error := fun _ => None;
     sendMessage := answering |}.

(** The sample deployment with [stat] as a file system answers it below
    a regular file: the path does not exist, and the error is ENOTDIR. *)
Definition stat_below_files (p : string) : stat_result :=
  if existsb (fun f => String.prefix (fst f +:+ "/") p) files
  then StatErr "ENOTDIR"
  else stat_in files directories p.

Definition strict_world : World :=
  {| env := {[ "GOOGLE_AI_KEY" := "secret" ]};
     cwd := "/srv";
     stat := stat_below_files;
     createReadStream := open_in files;
     read_before_error := fun _ => None;
     sendMessage := answering |}.

(** A deployment whose disk fails: no file is read to its end.  The
    entry document does not open; the index of [docs] opens and fails at
    once, as a directory in its place would; the style sheet fails after
    two bytes. *)
Definition failing_reads (p : string) : option string :=
  if bool_decide (p = "/srv/public/docs/index.html") then Some ""
  else if bool_decide (p = "/srv/public/style.css") then Some "bo"
  else None.

Definition faulty_world : World :=
  {| env := {[ "GOOGLE_AI_KEY" := "secret" ]};
     cwd := "/srv";
     stat := stat_in files directories;
     createReadStream := fun _ => inl (Error "EIO: i/o error, read");
     read_before_error := failing_reads;
     sendMessage := answering |}.

End SamplePage.


(** * Properties *)

Section Properties.
Context `{Host}.

Implicit Types (w : World) (req : Request) (body : value).

Local Ltac run :=
  unfold serve, handler, chat_route, static_route, sendFile, sendJson,
    setHeader, set_statusCode, writeHead, end_, emit, modify_res, try_catch,
    lift, throw, mbind, M_bind, mret, M_ret; simpl.

(** ** Strings *)

(** What is left of a string after [trimStart] does not begin with white
    space. *)
Lemma trimStart_head s :
  trimStart s = "" ∨ ∃ c r, trimStart s = String c r ∧ is_white_space c = false.
Proof.
  induction s as [|c s IH]; simpl; [by left|].
  destruct (is_white_space c) eqn:Hc; [exact IH | right; eauto].
Qed.

Lemma trimStart_empty_iff s :
  trimStart s = "" ↔ forallb is_white_space (list_ascii_of_string s) = true.
Proof.
  induction s as [|c s IH]; simpl; [done|].
  destruct (is_white_space c); simpl; [exact IH | done].
Qed.

Lemma trimEnd_keeps_head c r : is_white_space c = false → trimEnd (String c r) ≠ "".
Proof. intros Hc. simpl. rewrite Hc. by destruct (trimEnd r). Qed.

(** A string trims to the empty string exactly when it consists of white
    space only; the empty string is the first such string. *)
Lemma trim_empty_iff s :
  trim s = "" ↔ forallb is_white_space (list_ascii_of_string s) = true.
Proof.
  rewrite <- trimStart_empty_iff. unfold trim.
  destruct (trimStart_head s) as [-> | (c & r & -> & Hc)]; [done|].
  split; [|done]. intros Ht. by destruct (trimEnd_keeps_head c r Hc).
Qed.

Lemma append_empty_l (t : string) : "" +:+ t = t.
Proof. reflexivity. Qed.

(** ** Routing *)

Lemma try_catch_returns {A} (m : M A) h s :
  (∀ e s', ∃ a s'', h e s' = (inr a, s'')) →
  ∃ a s', try_catch m h s = (inr a, s').
Proof.
  intros Hh. unfold try_catch.
  destruct (m s) as [[e|a] s']; [apply Hh | eauto].
Qed.

(** The steps that write the response return, whatever the state. *)
Lemma sendJson_returns code (payload : value) s : ∃ s', sendJson code payload s = (inr tt, s').
Proof.
  unfold sendJson, setHeader, set_statusCode, end_, modify_res, mbind, M_bind. simpl.
  case_bool_decide; eauto.
Qed.

Lemma plain_returns code (text : string) s :
  ∃ s', (set_statusCode code;; end_ text) s = (inr tt, s').
Proof.
  unfold set_statusCode, end_, modify_res, mbind, M_bind. case_bool_decide; eauto.
Qed.

Lemma sendFile_returns w filePath contentType s :
  ∃ s', sendFile w filePath contentType s = (inr tt, s').
Proof.
  unfold sendFile, setHeader, set_statusCode, write, end_, emit, modify_res, mbind, M_bind.
  simpl.
  destruct (createReadStream w filePath); [destruct (read_before_error w filePath)|];
    simpl; repeat case_bool_decide; eauto.
Qed.

Lemma chat_route_returns w req s : ∃ s', chat_route w req s = (inr tt, s').
Proof.
  unfold chat_route.
  edestruct (try_catch_returns (A:=unit)) as ([] & s' & ->); [|eauto].
  intros e s0. exists tt. apply sendJson_returns.
Qed.

Lemma static_route_returns w pathname ext s :
  ∃ s', static_route w pathname ext s = (inr tt, s').
Proof.
  unfold static_route, emit, mbind, M_bind. simpl.
  destruct (stat w _) as [code|[|]]; [case_bool_decide|..]; try apply sendFile_returns.
  apply plain_returns.
Qed.

(** A request that is not a preflight and whose URL parses reaches the
    routes with the CORS headers set and nothing else done. *)
Lemma chat_post_routed w req :
  chat_post req →
  handler w req {| res := fresh_response; trace := []; written := "" |} =
  chat_route w req
    {| res := {| res_headers := cors_headers w req; statusCode := 200; res_body := None |};
       trace := []; written := "" |}.
Proof.
  intros [Hm Hp]. unfold handler.
  unfold mbind, M_bind, setHeader, modify_res; simpl.
  rewrite Hm, Hp; simpl.
  unfold try_catch, lift, mret, M_ret; simpl.
  fold (cors_headers w req).
  by destruct (chat_route_returns w req
       {| res := {| res_headers := cors_headers w req; statusCode := 200; res_body := None |};
          trace := []; written := "" |}) as [s' ->].
Qed.

(** Past the header check the handler returns, whatever the request:
    each of its two [catch] blocks answers without throwing, and nothing
    else outside them throws. *)
Lemma handler_returns w req : exit_code (serve w req) = None.
Proof.
  unfold serve, handler.
  unfold mbind at 1 2 3. unfold M_bind at 1 2 3. simpl.
  case_bool_decide; [done|].
  edestruct (try_catch_returns (A:=unit)) as (a & s' & ->); [|done].
  intros e s'. exists tt. apply plain_returns.
Qed.

(** ** The chat route: invalid input *)

(** The message the handler works with is blank: 400, and nothing else
    happens. *)
Lemma blank_message_outcome w req body :
  chat_post req →
  readJson req = inr body →
  trim (message_of body) = "" →
  serve w req =
  {| response := json_response w req 400 (JObj [("error", JStr "Message is required")]);
     events := [];
     exit_code := None |}.
Proof.
  intros Hpost Hbody Hblank. unfold serve.
  rewrite (chat_post_routed _ _ Hpost). run.
  by rewrite Hbody, Hblank.
Qed.

(** C1: a POST to /api/chat whose JSON body has no [message] field, or a
    [message] that is empty or only white space after trimming, is
    answered 400 with the JSON body [{error: "Message is required"}]; the
    provider is not called (no event at all is recorded) and the process
    stays up. *)
Theorem missing_or_blank_message_is_rejected w req body :
  chat_post req →
  readJson req = inr body →
  (get (Some body) "message" = None ∨
   ∃ m, get (Some body) "message" = Some (JStr m) ∧ trim m = "") →
  serve w req =
  {| response := json_response w req 400 (JObj [("error", JStr "Message is required")]);
     events := [];
     exit_code := None |}.
Proof.
  intros Hpost Hbody Hmsg. apply (blank_message_outcome _ _ body); [done..|].
  unfold message_of. destruct Hmsg as [-> | (m & -> & Hm)]; [reflexivity | exact Hm].
Qed.

(** C9: a POST to /api/chat whose [message] field is present but is not a
    string (a number, a boolean, an object, an array, null) is handled
    as if the message were the empty string: 400 with
    [{error: "Message is required"}], and the provider is not called. *)
Theorem non_string_message_is_rejected w req body v :
  chat_post req →
  readJson req = inr body →
  get (Some body) "message" = Some v →
  (∀ s, v ≠ JStr s) →
  message_of body = "" ∧
  serve w req =
  {| response := json_response w req 400 (JObj [("error", JStr "Message is required")]);
     events := [];
     exit_code := None |}.
Proof.
  intros Hpost Hbody Hv Hns.
  assert (message_of body = "") as Hm.
  { unfold message_of. rewrite Hv. destruct v; try reflexivity. by destruct (Hns s). }
  split; [exact Hm|].
  apply (blank_message_outcome _ _ body); [done..|]. by rewrite Hm.
Qed.

(** ** The chat route: the relay *)

(** The body cannot be read or parsed: the inner [catch] answers. *)
Lemma unreadable_body_outcome w req e :
  chat_post req →
  readJson req = inl e →
  serve w req =
  {| response := json_response w req 500 (failure_payload e);
     events := [];
     exit_code := None |}.
Proof.
  intros Hpost Hbody. unfold serve.
  rewrite (chat_post_routed _ _ Hpost). run.
  by rewrite Hbody.
Qed.

(** A request with a usable message and a convertible history: the
    provider is called once, and its answer decides the response. *)
Lemma relay_outcome w req body turns :
  chat_post req →
  readJson req = inr body →
  trim (message_of body) ≠ "" →
  history_turns (conversationHistory_of body) = inr turns →
  let history := system_turn :: greeting_turn :: turns in
  let payload :=
    match sendMessage w history (message_of body) with
    | inl e => inl e
    | inr reply => reply_text reply
    end in
  serve w req =
  {| response :=
       match payload with
       | inr text => json_response w req 200 (JObj [("response", JStr text)])
       | inl e => json_response w req 500 (failure_payload e)
       end;
     events := [ProviderCall history (message_of body)];
     exit_code := None |}.
Proof.
  intros Hpost Hbody Hmsg Hturns. simpl. unfold serve.
  rewrite (chat_post_routed _ _ Hpost). run.
  rewrite Hbody. unfold truthy. rewrite (bool_decide_eq_false_2 _ Hmsg). simpl.
  rewrite Hturns.
  destruct (sendMessage w _ _) as [e|[[e|text]]]; reflexivity.
Qed.

(** A history element whose content cannot be converted stops the request
    before the provider is called. *)
Lemma unconvertible_history_outcome w req body e :
  chat_post req →
  readJson req = inr body →
  trim (message_of body) ≠ "" →
  history_turns (conversationHistory_of body) = inl e →
  serve w req =
  {| response := json_response w req 500 (failure_payload e);
     events := [];
     exit_code := None |}.
Proof.
  intros Hpost Hbody Hmsg Hturns. unfold serve.
  rewrite (chat_post_routed _ _ Hpost). run.
  rewrite Hbody. unfold truthy. rewrite (bool_decide_eq_false_2 _ Hmsg). simpl.
  by rewrite Hturns.
Qed.

(** [history_turns] is [history_turn] on each element, in order. *)
Lemma history_turns_inr l turns :
  history_turns l = inr turns ↔ Forall2 (fun msg c => history_turn msg = inr c) l turns.
Proof.
  revert turns. induction l as [|msg l IH]; intros turns; simpl.
  - split; [intros [= <-]; constructor | by inversion 1].
  - destruct (history_turn msg) as [e|c] eqn:Hc.
    + split; [done | inversion 1; congruence].
    + destruct (history_turns l) as [e|cs] eqn:Hcs.
      * split; [done|]. inversion 1 as [|???? _ Hl]; subst.
        apply IH in Hl. discriminate.
      * split.
        -- intros [= <-]. constructor; [done | by apply IH].
        -- inversion 1 as [|???? Hc' Hl]; subst.
           apply IH in Hl. congruence.
Qed.

Lemma history_turn_spec msg c : history_turn msg = inr c ↔ turn_of msg c.
Proof.
  unfold history_turn, turn_of.
  destruct (content_text _) as [e|t]; split.
  - done.
  - intros (_ & t & [=] & _).
  - intros [= <-]. eauto.
  - intros (Hr & t' & [= <-] & Hp). destruct c as [r p]; simpl in *. by subst.
Qed.

(** Convertible contents are all it takes for the history to convert. *)
Lemma history_turns_convertible l :
  Forall (fun msg => ∃ t, content_text (get (Some msg) "content") = inr t) l →
  ∃ turns, history_turns l = inr turns ∧ Forall2 turn_of l turns.
Proof.
  induction 1 as [|msg l (t & Ht) _ (turns & Hturns & Hall)]; simpl.
  - exists []. split; [done | constructor].
  - unfold history_turn at 1. rewrite Ht, Hturns. eexists; split; [done|].
    constructor; [|done]. split; [done|]. eauto.
Qed.

Lemma prompt_turn_assembled (msg : value) c : prompt_turn msg c → history_turn msg = inr c.
Proof.
  intros [Hrole Htext]. destruct c as [r ps]. cbn [role parts] in *.
  assert (normalize_role (get (Some msg) "role") = r) as Hr.
  { destruct Hrole as [[-> ->] | [Hne ->]]; [done|].
    destruct (get (Some msg) "role") as [[| | |t| |]|]; cbn [normalize_role]; try done.
    case_bool_decide; [by subst t|done]. }
  unfold history_turn. rewrite Hr.
  destruct Htext as [(t & -> & ->) | [[-> | ->] ->]]; reflexivity.
Qed.

(** C2: for a valid POST to /api/chat (the body parses, the message is a
    string that is not blank, the history elements carry text) the
    provider is called exactly once.  The history of the call is the
    fixed system-instruction turn, the fixed greeting turn, then one turn
    per element of the request's conversationHistory, in order, with the
    element's text and its role normalized; the message of the call is
    the request's message, which the chat session sends as the last user
    turn. *)
Theorem prompt_assembly w req body m items turns :
  chat_post req →
  readJson req = inr body →
  get (Some body) "message" = Some (JStr m) →
  trim m ≠ "" →
  get (Some body) "conversationHistory" = Some (JArr items) ∨
  (get (Some body) "conversationHistory" = None ∧ items = []) →
  Forall2 prompt_turn items turns →
  events (serve w req) = [ProviderCall (system_turn :: greeting_turn :: turns) m] ∧
  turns_seen (system_turn :: greeting_turn :: turns) m =
    ([system_turn; greeting_turn] ++ turns ++
     [ {| role := "user"; parts := [ {| text := m |} ] |} ])%list.
Proof.
  intros Hpost Hbody Hm Hblank Hitems Hturns.
  assert (message_of body = m) as Hmsg by (unfold message_of; by rewrite Hm).
  assert (conversationHistory_of body = items) as Hhist.
  { unfold conversationHistory_of. by destruct Hitems as [-> | [-> ->]]. }
  assert (history_turns items = inr turns) as Hconv.
  { apply history_turns_inr.
    eapply Forall2_impl; [exact Hturns|]. apply prompt_turn_assembled. }
  split; [|reflexivity].
  rewrite (relay_outcome w req body turns); [by rewrite Hmsg | done.. | by rewrite Hmsg |].
  by rewrite Hhist.
Qed.

(** A body that cannot be read, a provider call that throws, or a reply
    whose [text()] throws: the inner [catch] answers 500 with the message
    of the error. *)
Lemma failure_outcome w req e :
  chat_post req →
  (readJson req = inl e ∨
   ∃ body turns,
     readJson req = inr body ∧
     trim (message_of body) ≠ "" ∧
     history_turns (conversationHistory_of body) = inr turns ∧
     let history := system_turn :: greeting_turn :: turns in
     (sendMessage w history (message_of body) = inl e ∨
      ∃ reply, sendMessage w history (message_of body) = inr reply ∧ reply_text reply = inl e)) →
  response (serve w req) = json_response w req 500 (failure_payload e) ∧
  exit_code (serve w req) = None.
Proof.
  intros Hpost [Hbody | (body & turns & Hbody & Hmsg & Hturns & Hfail)].
  - by rewrite (unreadable_body_outcome w req e).
  - rewrite (relay_outcome w req body turns) by done. simpl in *.
    destruct Hfail as [-> | (reply & -> & ->)]; done.
Qed.

(** C10: when conversationHistory is present but is not an array, the
    history counts as empty: the provider is called with the two fixed
    turns and the new message only, and a reply is relayed with status
    200. *)
Theorem non_array_history_is_empty w req body m v :
  chat_post req →
  readJson req = inr body →
  get (Some body) "message" = Some (JStr m) →
  trim m ≠ "" →
  get (Some body) "conversationHistory" = Some v →
  (∀ items, v ≠ JArr items) →
  conversationHistory_of body = [] ∧
  events (serve w req) = [ProviderCall [system_turn; greeting_turn] m] ∧
  ∀ reply text,
    sendMessage w [system_turn; greeting_turn] m = inr reply →
    reply_text reply = inr text →
    response (serve w req) = json_response w req 200 (JObj [("response", JStr text)]) ∧
    exit_code (serve w req) = None.
Proof.
  intros Hpost Hbody Hm Hblank Hv Hna.
  assert (message_of body = m) as Hmsg by (unfold message_of; by rewrite Hm).
  assert (conversationHistory_of body = []) as Hh.
  { unfold conversationHistory_of. rewrite Hv.
    destruct v; try reflexivity. by destruct (Hna items). }
  rewrite (relay_outcome w req body []);
    [| done | done | by rewrite Hmsg | by rewrite Hh].
  rewrite Hmsg. simpl. split; [done|]. split; [done|].
  by intros reply text -> ->.
Qed.

(** ** Role normalization *)

(** C4: a history turn gets the role "user" exactly when the role it came
    with is the string "user", and the provider's assistant role "model"
    otherwise ("system" included); normalizing a normalized role changes
    nothing. *)
Theorem role_normalization (r : option value) :
  (normalize_role r = "user" ↔ r = Some (JStr "user")) ∧
  (r ≠ Some (JStr "user") → normalize_role r = "model") ∧
  normalize_role (Some (JStr "system")) = "model" ∧
  normalize_role (Some (JStr (normalize_role r))) = normalize_role r ∧
  ∀ msg c, history_turn msg = inr c → role c = normalize_role (get (Some msg) "role").
Proof.
  assert (∀ r', normalize_role r' = "user" ↔ r' = Some (JStr "user")) as Huser.
  { intros [[| | |s| |]|]; simpl; try (split; discriminate).
    case_bool_decide; split; (congruence || discriminate). }
  assert (∀ r', normalize_role r' = "user" ∨ normalize_role r' = "model") as Htwo.
  { intros [[| | |s| |]|]; simpl; auto. case_bool_decide; auto. }
  repeat split.
  - apply Huser.
  - apply Huser.
  - intros Hr. destruct (Htwo r) as [Hu | Hm]; [|done]. by apply Huser in Hu.
  - by destruct (Htwo r) as [-> | ->].
  - intros msg c Hc. by apply history_turn_spec in Hc as [-> _].
Qed.

(** ** Preflight and CORS *)

Lemma cors_headers_carry w req :
  carries_cors w req
    {| res_headers := cors_headers w req; statusCode := 200; res_body := None |}.
Proof. unfold carries_cors, cors_headers. simpl. by simplify_map_eq. Qed.

(** Past the header check, a preflight is answered at once. *)
Lemma preflight_outcome w req :
  method req = "OPTIONS" →
  serve w req =
  {| response := {| res_headers := cors_headers w req; statusCode := 204; res_body := Some "" |};
     events := [];
     exit_code := None |}.
Proof. intros Hm. run. by rewrite Hm. Qed.

(** Once set, the CORS headers stay: every later step of the handler
    either leaves the headers alone or sets Content-Type. *)

Lemma keeps_ret w req {A} (a : A) : keeps_cors w req (mret a).
Proof. by intros s. Qed.

Lemma keeps_throw w req {A} e : keeps_cors w req (throw (A:=A) e).
Proof. by intros s. Qed.

Lemma keeps_lift w req {A} (r : exn + A) : keeps_cors w req (lift r).
Proof. destruct r; by intros s. Qed.

Lemma keeps_bind w req {A B} (m : M A) (f : A → M B) :
  keeps_cors w req m → (∀ a, keeps_cors w req (f a)) → keeps_cors w req (m ≫= f).
Proof.
  intros Hm Hf s Hs. specialize (Hm s Hs).
  unfold mbind, M_bind. destruct (m s) as [[e|a] s']; [done|]. by apply Hf.
Qed.

Lemma keeps_try_catch w req {A} (m : M A) h :
  keeps_cors w req m → (∀ e, keeps_cors w req (h e)) → keeps_cors w req (try_catch m h).
Proof.
  intros Hm Hh s Hs. specialize (Hm s Hs).
  unfold try_catch. destruct (m s) as [[e|a] s']; [|done]. by apply Hh.
Qed.

Lemma keeps_emit w req e : keeps_cors w req (emit e).
Proof. by intros s. Qed.

Lemma keeps_set_statusCode w req code : keeps_cors w req (set_statusCode code).
Proof. intros s Hs. unfold set_statusCode. by case_bool_decide. Qed.

Lemma keeps_write w req chunk : keeps_cors w req (write chunk).
Proof. by intros s. Qed.

Lemma keeps_end w req bytes : keeps_cors w req (end_ bytes).
Proof. by intros s. Qed.

Lemma keeps_writeHead w req code : keeps_cors w req (writeHead code []).
Proof. by intros s. Qed.

Lemma keeps_content_type w req val : keeps_cors w req (setHeader "Content-Type" val).
Proof.
  intros s (Ho & Hm & Hh). unfold carries_cors; simpl.
  by rewrite !lookup_insert_ne by done.
Qed.

Create HintDb cors.
#[local] Hint Resolve keeps_ret keeps_throw keeps_lift keeps_emit keeps_set_statusCode
  keeps_write keeps_end keeps_writeHead keeps_content_type : cors.
#[local] Hint Extern 2 (keeps_cors _ _ (_ ≫= _)) => apply keeps_bind; [|intros ?] : cors.
#[local] Hint Extern 2 (keeps_cors _ _ (try_catch _ _)) =>
  apply keeps_try_catch; [|intros ?] : cors.
#[local] Hint Extern 3 (keeps_cors _ _ (if ?b then _ else _)) => destruct b : cors.
#[local] Hint Extern 3 (keeps_cors _ _ (match ?x with _ => _ end)) => destruct x : cors.

Lemma keeps_sendJson w req code payload : keeps_cors w req (sendJson code payload).
Proof. unfold sendJson. auto 10 with cors. Qed.

Lemma keeps_sendFile w req filePath contentType :
  keeps_cors w req (sendFile w filePath contentType).
Proof. unfold sendFile. auto 10 with cors. Qed.

#[local] Hint Resolve keeps_sendJson keeps_sendFile : cors.

Lemma keeps_chat_route w req : keeps_cors w req (chat_route w req).
Proof. unfold chat_route. auto 20 with cors. Qed.

Lemma keeps_static_route w req pathname ext :
  keeps_cors w req (static_route w pathname ext).
Proof. unfold static_route. auto 20 with cors. Qed.

#[local] Hint Resolve keeps_chat_route keeps_static_route : cors.

(** C7: every response carries Access-Control-Allow-Origin,
    Access-Control-Allow-Methods "GET, POST, OPTIONS" and
    Access-Control-Allow-Headers "Content-Type".  The origin is the
    configured deployment origin ("https://" followed by VERCEL_URL) when
    one is configured, and otherwise the origin the request declares; a
    request that declares none gets "*". *)
Theorem cors_on_every_response w req :
  carries_cors w req (response (serve w req)) ∧
  (∀ deployment,
     env w !! "VERCEL_URL" = Some deployment → deployment ≠ "" →
     allow_origin w req = "https://" +:+ deployment) ∧
  (truthy_opt (env w !! "VERCEL_URL") = false →
   ∀ origin,
     headers req !! "origin" = Some origin → origin ≠ "" →
     allow_origin w req = origin) ∧
  (truthy_opt (env w !! "VERCEL_URL") = false →
   truthy_opt (headers req !! "origin") = false →
   allow_origin w req = "*").
Proof.
  split; [|split; [|split]].
  - assert (keeps_cors w req
      (if bool_decide (method req = "OPTIONS")
       then writeHead 204 [];; end_ ""
       else
         try_catch
           (pathname ← lift (request_pathname req);
            let pathname := if bool_decide (pathname = "/") then "/index.html" else pathname in
            let ext := toLowerCase (path_extname pathname) in
            if bool_decide (method req = "OPTIONS")
            then
              writeHead 204 [("Access-Control-Allow-Origin", "*");
                             ("Access-Control-Allow-Methods", "GET, POST, OPTIONS");
                             ("Access-Control-Allow-Headers", "Content-Type")];;
              end_ ""
            else if bool_decide (method req = "POST") && bool_decide (pathname = "/api/chat")
            then chat_route w req
            else if bool_decide (method req = "GET")
            then static_route w pathname ext
            else set_statusCode 404;; end_ "Not Found")
           (fun error => set_statusCode 500;; end_ "Internal Server Error"))) as Hrest.
    { case_bool_decide as Hm; [auto 10 with cors|].
      apply keeps_try_catch; [|auto 10 with cors].
      apply keeps_bind; [auto with cors|]. intros pathname. simpl. auto 20 with cors. }
    specialize (Hrest
      {| res := {| res_headers := cors_headers w req; statusCode := 200; res_body := None |};
         trace := []; written := "" |} (cors_headers_carry w req)).
    unfold serve, handler.
    unfold mbind at 1 2 3. unfold M_bind at 1 2 3. simpl.
    fold (cors_headers w req).
    by destruct (_ {| res := _; trace := []; written := "" |}) as [[?|?] ?].
  - intros deployment Hd Hne. unfold allow_origin. rewrite Hd.
    unfold truthy. by rewrite (bool_decide_eq_false_2 _ Hne).
  - intros Hnone origin Ho Hne. unfold allow_origin, or_else.
    rewrite Ho.
    assert (truthy origin = true) as ->
      by (unfold truthy; by rewrite (bool_decide_eq_false_2 _ Hne)).
    destruct (env w !! "VERCEL_URL") as [d|]; [|done]. simpl in Hnone. by rewrite Hnone.
  - intros Hnone Hno. unfold allow_origin, or_else.
    destruct (env w !! "VERCEL_URL") as [d|]; simpl in Hnone; rewrite ?Hnone;
      (destruct (headers req !! "origin") as [o|]; simpl in Hno; by rewrite ?Hno).
Qed.

(** ** Static files *)

Lemma get_routed w req p :
  method req = "GET" →
  request_pathname req = inr p →
  let pathname := if bool_decide (p = "/") then "/index.html" else p in
  handler w req {| res := fresh_response; trace := []; written := "" |} =
  static_route w pathname (toLowerCase (path_extname pathname))
    {| res := {| res_headers := cors_headers w req; statusCode := 200; res_body := None |};
       trace := []; written := "" |}.
Proof.
  intros Hm Hp. unfold handler.
  unfold mbind, M_bind, setHeader, modify_res; simpl.
  rewrite Hm, Hp; simpl.
  unfold try_catch, lift, mret, M_ret; simpl.
  fold (cors_headers w req).
  unfold static_route, sendFile, emit, set_statusCode, end_, modify_res, mbind, M_bind.
  by repeat case_match.
Qed.

Lemma resolved_path_twice w p :
  path_join [cwd w; "public";
             let pathname := if bool_decide (p = "/") then "/index.html" else p in
             if bool_decide (pathname = "/") then "/index.html" else pathname]
  = resolved_path w p.
Proof. unfold resolved_path. simpl. by repeat case_bool_decide. Qed.

(** What the static route does with a path, by what [stat] and the read
    stream report. *)
Lemma static_outcome w req p :
  method req = "GET" →
  request_pathname req = inr p →
  let filePath := resolved_path w p in
  let send target contentType :=
    {| response := sent_response w req target contentType;
       events := [FsStat filePath; FsRead target];
       exit_code := None |} in
  serve w req =
  match stat w filePath with
  | StatErr code =>
      if bool_decide (code = "ENOENT")
      then send (path_join [cwd w; "public"; "index.html"]) "text/html"
      else
        {| response :=
             {| res_headers := cors_headers w req; statusCode := 500;
                res_body := Some "Internal Server Error" |};
           events := [FsStat filePath];
           exit_code := None |}
  | Stats true => send (path_join [filePath; "index.html"]) "text/html"
  | Stats false =>
      send filePath
        (default "application/octet-stream"
           (mime_lookup
              (toLowerCase (path_extname (if bool_decide (p = "/") then "/index.html" else p)))
              mimeTypes))
  end.
Proof.
  intros Hm Hp. simpl. unfold serve. rewrite (get_routed _ _ _ Hm Hp).
  unfold static_route. rewrite resolved_path_twice.
  unfold sent_response, sendFile, setHeader, set_statusCode, write, end_, emit, modify_res,
    mbind, M_bind. simpl.
  destruct (stat w _) as [code|[|]]; [case_bool_decide|..]; simpl; try done;
    (destruct (createReadStream w _); [destruct (read_before_error w _) as [read|]|]; simpl;
     [rewrite !append_empty_l; by destruct (bool_decide (read = "")) | done | done]).
Qed.

(** C6, as the code has it: a GET whose resolved path does not exist
    under the static asset root, as [stat] reports with ENOENT (whatever
    the requested path, attempts to climb out of the root included), is
    answered with the front-end entry document public/index.html with
    status 200, not 404, provided the entry document can be opened and
    read; a GET for a directory is answered with that directory's
    index.html under the same proviso. *)
Theorem entry_document_fallback w req p bytes :
  method req = "GET" →
  request_pathname req = inr p →
  (stat w (resolved_path w p) = StatErr "ENOENT" ∧
   createReadStream w (path_join [cwd w; "public"; "index.html"]) = inr bytes) ∨
  (stat w (resolved_path w p) = Stats true ∧
   createReadStream w (path_join [resolved_path w p; "index.html"]) = inr bytes) →
  response (serve w req) = file_response w req "text/html" bytes ∧
  statusCode (response (serve w req)) = 200 ∧
  exit_code (serve w req) = None.
Proof.
  intros Hm Hp Hcase. rewrite (static_outcome w req p Hm Hp). unfold sent_response. simpl.
  destruct Hcase as [[-> ->] | [-> ->]]; done.
Qed.

(** When the entry document cannot be opened the fallback ends in 404. *)
Lemma missing_entry_document_outcome w req p e :
  method req = "GET" →
  request_pathname req = inr p →
  stat w (resolved_path w p) = StatErr "ENOENT" →
  createReadStream w (path_join [cwd w; "public"; "index.html"]) = inl e →
  read_before_error w (path_join [cwd w; "public"; "index.html"]) = None →
  statusCode (response (serve w req)) = 404 ∧
  res_body (response (serve w req)) = Some "Not Found".
Proof.
  intros Hm Hp Hs Ho Hr. rewrite (static_outcome w req p Hm Hp). unfold sent_response. simpl.
  by rewrite Hs, Ho, Hr.
Qed.

(** ** Start-up *)

(** C8: without GOOGLE_AI_KEY in the environment the module throws before
    the server exists; with a key, it reaches [server.listen] on host
    0.0.0.0 and on the configured port: 3001 when PORT is not set, and
    the number PORT reads as otherwise. *)
Theorem startup_requires_api_key (e : gmap string string) :
  (e !! "GOOGLE_AI_KEY" = None →
   startup e = inl (Error "Missing required environment variable: GOOGLE_AI_KEY")) ∧
  (∀ key, e !! "GOOGLE_AI_KEY" = Some key → key ≠ "" →
     startup e = inr {| listen_port := port e; listen_host := "0.0.0.0" |} ∧
     (e !! "PORT" = None → port e = number_of_Z 3001) ∧
     (∀ p, e !! "PORT" = Some p → p ≠ "" → port e = StringToNumber p)).
Proof.
  split.
  - intros Hk. unfold startup. by rewrite Hk.
  - intros key Hk Hne. split; [|split].
    + unfold startup. rewrite Hk. simpl. unfold truthy.
      by rewrite (bool_decide_eq_false_2 _ Hne).
    + intros Hp. unfold port. by rewrite Hp.
    + intros p Hp Hpne. unfold port. rewrite Hp. unfold truthy.
      by rewrite (bool_decide_eq_false_2 _ Hpne).
Qed.

End Properties.

(** * More properties of the server *)

Section Server.
Context `{Host}.

Implicit Types (w : World) (req : Request).

(** The run of the handler and the case analysis agree on every request. *)
Lemma serve_outcome w req : serve w req = outcome_of w req.
Proof.
  unfold outcome_of. case_bool_decide as Hm.
  { unfold serve, handler, setHeader, writeHead, end_, modify_res, mbind, M_bind. simpl.
    by rewrite Hm. }
  destruct (request_pathname req) as [e|p] eqn:Hp.
  { unfold serve, handler, setHeader, set_statusCode, end_, modify_res, try_catch, lift,
      throw, mbind, M_bind. simpl.
    by rewrite (bool_decide_eq_false_2 _ Hm), Hp. }
  destruct (bool_decide (method req = "POST") && bool_decide (p = "/api/chat")) eqn:Hroute.
  { apply andb_true_iff in Hroute as [Hpost Hchat].
    apply bool_decide_eq_true_1 in Hpost. apply bool_decide_eq_true_1 in Hchat. subst p.
    assert (chat_post req) as Hcp by done.
    unfold chat_outcome.
    destruct (readJson req) as [e|body] eqn:Hbody.
    { by apply unreadable_body_outcome. }
    case_bool_decide as Hblank.
    { by apply (blank_message_outcome _ _ body). }
    destruct (history_turns _) as [e|turns] eqn:Hturns.
    { by apply (unconvertible_history_outcome _ _ body). }
    rewrite (relay_outcome w req body turns) by done. simpl.
    by destruct (sendMessage w _ _) as [e|[[e|text]]]. }
  destruct (decide (method req = "GET")) as [Hget|Hget];
    [rewrite (bool_decide_eq_true_2 _ Hget) | rewrite (bool_decide_eq_false_2 _ Hget)].
  { rewrite (static_outcome w req p Hget Hp).
    unfold static_outcome_of, send_target, send_type. simpl.
    destruct (stat w _) as [code|[|]]; [by destruct (bool_decide (code = "ENOENT"))|done..]. }
  unfold serve, handler, setHeader, set_statusCode, end_, modify_res, try_catch, lift,
    mret, M_ret, mbind, M_bind. simpl.
  rewrite (bool_decide_eq_false_2 _ Hm), Hp. simpl.
  assert ((bool_decide (method req = "POST") &&
           bool_decide ((if bool_decide (p = "/") then "/index.html" else p) = "/api/chat"))
          = false) as ->.
  { apply andb_false_iff in Hroute as [->|Hroute]; [done|].
    apply andb_false_iff. right. apply bool_decide_eq_false_1 in Hroute.
    apply bool_decide_eq_false_2. by case_bool_decide. }
  by rewrite (bool_decide_eq_false_2 _ Hget).
Qed.

Lemma serve_chat w req : chat_post req → serve w req = chat_outcome w req.
Proof.
  intros [Hm Hp]. rewrite serve_outcome. unfold outcome_of.
  by rewrite Hm, Hp.
Qed.

Lemma serve_static w req p :
  method req = "GET" →
  request_pathname req = inr p →
  serve w req = static_outcome_of w req p.
Proof.
  intros Hm Hp. rewrite serve_outcome. unfold outcome_of.
  by rewrite Hm, Hp.
Qed.

(** What a request can leave in the trace: nothing, one provider call, or
    one stat followed by at most one read. *)
Lemma events_shape w req :
  events (serve w req) = [] ∨
  (chat_post req ∧
   ∃ body turns,
     readJson req = inr body ∧ trim (message_of body) ≠ "" ∧
     events (serve w req) =
       [ProviderCall (system_turn :: greeting_turn :: turns) (message_of body)]) ∨
  (method req = "GET" ∧
   ∃ path, events (serve w req) = [FsStat path] ∨
           ∃ target, events (serve w req) = [FsStat path; FsRead target]).
Proof.
  rewrite serve_outcome. unfold outcome_of.
  destruct (decide (method req = "OPTIONS")) as [Hm|Hm];
    [rewrite (bool_decide_eq_true_2 _ Hm) | rewrite (bool_decide_eq_false_2 _ Hm)];
    [by left|].
  destruct (request_pathname req) as [e|p] eqn:Hp; [by left|].
  destruct (decide (method req = "POST")) as [Hpost|Hpost];
    [rewrite (bool_decide_eq_true_2 _ Hpost) | rewrite (bool_decide_eq_false_2 _ Hpost)];
    simpl.
  - destruct (decide (p = "/api/chat")) as [->|Hchat];
      [rewrite (bool_decide_eq_true_2 _ eq_refl) | rewrite (bool_decide_eq_false_2 _ Hchat)].
    + unfold chat_outcome.
      destruct (readJson req) as [e|body]; [by left|].
      destruct (decide (trim (message_of body) = "")) as [Hb|Hb];
        [rewrite (bool_decide_eq_true_2 _ Hb) | rewrite (bool_decide_eq_false_2 _ Hb)];
        [by left|].
      destruct (history_turns _) as [e|turns]; [by left|].
      right; left. split; [done|]. by exists body, turns.
    + rewrite Hpost. by left.
  - destruct (decide (method req = "GET")) as [Hget|Hget];
      [rewrite (bool_decide_eq_true_2 _ Hget) | rewrite (bool_decide_eq_false_2 _ Hget)];
      [|by left].
    right; right. split; [done|]. exists (resolved_path w p).
    unfold static_outcome_of. destruct (send_target w p) as [target|]; simpl; eauto.
Qed.

(** X1: when the provider answers with a text, the response is status
    200 with the JSON body [{response: text}]: the text is relayed as it
    came, after exactly one provider call. *)
Theorem reply_is_relayed_verbatim w req body turns result text :
  chat_post req →
  readJson req = inr body →
  trim (message_of body) ≠ "" →
  history_turns (conversationHistory_of body) = inr turns →
  sendMessage w (system_turn :: greeting_turn :: turns) (message_of body) = inr result →
  reply_text result = inr text →
  serve w req =
  returned (json_response w req 200 (JObj [("response", JStr text)]))
    [ProviderCall (system_turn :: greeting_turn :: turns) (message_of body)].
Proof.
  intros Hpost Hbody Hmsg Hturns Hsend Htext.
  rewrite (serve_chat _ _ Hpost). unfold chat_outcome.
  rewrite Hbody, (bool_decide_eq_false_2 _ Hmsg), Hturns. simpl.
  by rewrite Hsend, Htext.
Qed.

(** X3: the status of a response is always one of 200, 204, 400, 404 and
    500. *)
Theorem status_is_one_of_five w req :
  statusCode (response (serve w req)) ∈ status_codes.
Proof.
  rewrite serve_outcome.
  unfold outcome_of, chat_outcome, static_outcome_of, sent_response, status_codes.
  repeat (case_match; simpl); set_solver.
Qed.

(** X4: a request other than a preflight whose URL cannot be parsed is
    answered 500 with the plain body "Internal Server Error" by the outer
    [catch]; no route runs and no Content-Type is set. *)
Theorem unparsable_url_is_answered_500 w req e :
  method req ≠ "OPTIONS" →
  request_pathname req = inl e →
  serve w req = returned (plain_response w req 500 "Internal Server Error") [] ∧
  res_headers (response (serve w req)) !! "Content-Type" = None.
Proof.
  intros Hm Hp.
  assert (serve w req = returned (plain_response w req 500 "Internal Server Error") []) as ->.
  { rewrite serve_outcome. unfold outcome_of.
    by rewrite (bool_decide_eq_false_2 _ Hm), Hp. }
  split; [done|]. unfold cors_headers. simpl. by simplify_map_eq.
Qed.

(** X5: a request that is neither a preflight, nor a POST to /api/chat,
    nor a GET is answered 404 with the plain body "Not Found"; nothing
    else happens. *)
Theorem unmatched_route_is_answered_404 w req p :
  method req ≠ "OPTIONS" →
  method req ≠ "GET" →
  request_pathname req = inr p →
  ¬ (method req = "POST" ∧ p = "/api/chat") →
  serve w req = returned (plain_response w req 404 "Not Found") [].
Proof.
  intros Hm Hget Hp Hchat. rewrite serve_outcome. unfold outcome_of.
  rewrite (bool_decide_eq_false_2 _ Hm), Hp, (bool_decide_eq_false_2 _ Hget).
  destruct (decide (method req = "POST")) as [Hpost|Hpost].
  - rewrite (bool_decide_eq_true_2 _ Hpost), bool_decide_eq_false_2; [done|].
    intros ->. by apply Hchat.
  - by rewrite (bool_decide_eq_false_2 _ Hpost).
Qed.

(** X6: a GET for a regular file that can be read is answered 200 with
    the bytes of the file; the content type is the entry of [mimeTypes]
    for the lower-cased extension of the path, and
    application/octet-stream when the table has none. *)
Theorem regular_file_is_served w req p bytes :
  method req = "GET" →
  request_pathname req = inr p →
  stat w (resolved_path w p) = Stats false →
  createReadStream w (resolved_path w p) = inr bytes →
  let ext := toLowerCase (path_extname (if bool_decide (p = "/") then "/index.html" else p)) in
  serve w req =
  returned
    (file_response w req
       (match mime_lookup ext mimeTypes with
        | Some contentType => contentType
        | None => "application/octet-stream"
        end) bytes)
    [FsStat (resolved_path w p); FsRead (resolved_path w p)].
Proof.
  intros Hm Hp Hstat Hread ext.
  rewrite (serve_static _ _ _ Hm Hp).
  unfold static_outcome_of, sent_response, send_target, send_type.
  rewrite Hstat. cbv iota beta. rewrite Hread. fold ext.
  by destruct (mime_lookup ext mimeTypes).
Qed.

(** X7: when [stat] fails with a code other than ENOENT, a GET is
    answered 500 with the plain body "Internal Server Error", and no file
    is opened. *)
Theorem stat_failure_is_answered_500 w req p code :
  method req = "GET" →
  request_pathname req = inr p →
  stat w (resolved_path w p) = StatErr code →
  code ≠ "ENOENT" →
  serve w req =
  returned (plain_response w req 500 "Internal Server Error") [FsStat (resolved_path w p)].
Proof.
  intros Hm Hp Hstat Hcode.
  rewrite (serve_static _ _ _ Hm Hp). unfold static_outcome_of, send_target.
  by rewrite Hstat, (bool_decide_eq_false_2 _ Hcode).
Qed.

(** X8: when the read stream of the file the static route sends
    fails.  If it fails without having opened, the response is 404 with
    the plain body "Not Found" and no Content-Type.  If it opened and
    failed before delivering a byte, the response is 404 "Not Found" with
    the Content-Type the open had set.  If it failed after delivering
    bytes, those went out under status 200 with that Content-Type, and
    "Not Found" follows them in the body. *)
Theorem failed_read_is_answered w req p target e :
  method req = "GET" →
  request_pathname req = inr p →
  send_target w p = Some target →
  createReadStream w target = inl e →
  events (serve w req) = [FsStat (resolved_path w p); FsRead target] ∧
  (read_before_error w target = None →
   response (serve w req) = plain_response w req 404 "Not Found" ∧
   res_headers (response (serve w req)) !! "Content-Type" = None) ∧
  (read_before_error w target = Some "" →
   response (serve w req) =
   {| res_headers := <["Content-Type" := send_type w p]> (cors_headers w req);
      statusCode := 404;
      res_body := Some "Not Found" |}) ∧
  (∀ read, read_before_error w target = Some read → read ≠ "" →
   response (serve w req) =
   {| res_headers := <["Content-Type" := send_type w p]> (cors_headers w req);
      statusCode := 200;
      res_body := Some (read +:+ "Not Found") |}).
Proof.
  intros Hm Hp Htarget Hread.
  rewrite (serve_static _ _ _ Hm Hp). unfold static_outcome_of, sent_response.
  rewrite Htarget, Hread. cbn [events response returned].
  split; [done|]. split; [|split].
  - intros ->. split; [done|]. unfold plain_response, cors_headers. simpl.
    by simplify_map_eq.
  - by intros ->.
  - intros read -> Hne. by rewrite (bool_decide_eq_false_2 _ Hne).
Qed.

(** X9: the provider is called at most once per request, and only by a
    POST to /api/chat whose message is not blank; the history of the
    call opens with the two fixed turns. *)
Theorem provider_is_called_at_most_once w req history msg :
  ProviderCall history msg ∈ events (serve w req) →
  events (serve w req) = [ProviderCall history msg] ∧
  chat_post req ∧
  trim msg ≠ "" ∧
  ∃ turns, history = system_turn :: greeting_turn :: turns.
Proof.
  intros Hin.
  destruct (events_shape w req)
    as [Hev | [(Hpost & body & turns & _ & Hmsg & Hev) | (_ & path & [Hev | [target Hev]])]];
    rewrite Hev in Hin |- *.
  - by apply elem_of_nil in Hin.
  - apply list_elem_of_singleton in Hin. injection Hin as -> ->. eauto.
  - apply list_elem_of_singleton in Hin. discriminate.
  - apply elem_of_cons in Hin as [Hin|Hin]; [discriminate|].
    apply list_elem_of_singleton in Hin. discriminate.
Qed.

(** X10: the file system is looked at only for GET requests, and a
    request that looks at it does not call the provider. *)
Theorem files_are_touched_only_by_get w req path :
  FsStat path ∈ events (serve w req) ∨ FsRead path ∈ events (serve w req) →
  method req = "GET" ∧ ∀ history msg, ProviderCall history msg ∉ events (serve w req).
Proof.
  intros Hin.
  destruct (events_shape w req)
    as [Hev | [(Hpost & body & turns & _ & Hmsg & Hev) | (Hget & p & [Hev | [target Hev]])]];
    rewrite Hev in Hin |- *.
  - destruct Hin as [Hin|Hin]; by apply elem_of_nil in Hin.
  - destruct Hin as [Hin|Hin]; apply list_elem_of_singleton in Hin; discriminate.
  - split; [done|]. intros history msg Hc. apply list_elem_of_singleton in Hc. discriminate.
  - split; [done|]. intros history msg Hc.
    apply elem_of_cons in Hc as [Hc|Hc]; [discriminate|].
    apply list_elem_of_singleton in Hc. discriminate.
Qed.

(** X11: for a POST to /api/chat whose body parses, the status is 400
    exactly when the message the handler works with consists of white
    space only (the empty message included). *)
Theorem status_400_iff_blank w req body :
  chat_post req →
  readJson req = inr body →
  statusCode (response (serve w req)) = 400 ↔
  forallb is_white_space (list_ascii_of_string (message_of body)) = true.
Proof.
  intros Hpost Hbody. rewrite <- trim_empty_iff.
  rewrite (serve_chat _ _ Hpost). unfold chat_outcome. rewrite Hbody.
  destruct (decide (trim (message_of body) = "")) as [Hb|Hb];
    [rewrite (bool_decide_eq_true_2 _ Hb) | rewrite (bool_decide_eq_false_2 _ Hb)];
    [done|].
  split; [|done].
  destruct (history_turns _) as [e|turns]; simpl; [done|].
  by destruct (sendMessage w _ _) as [e|[[e|text]]].
Qed.

Lemma non_object_turn (msg : value) :
  (∀ props, msg ≠ JObj props) →
  history_turn msg = inr {| role := "model"; parts := [ {| text := "" |} ] |}.
Proof. intros Hno. destruct msg; try reflexivity. by destruct (Hno props). Qed.

Lemma non_object_turns (l : list value) :
  Forall (fun msg => ∀ props, msg ≠ JObj props) l →
  history_turns l =
  inr (replicate (length l) {| role := "model"; parts := [ {| text := "" |} ] |}).
Proof.
  induction 1 as [|msg l Hmsg _ IH]; simpl; [done|].
  by rewrite (non_object_turn msg Hmsg), IH.
Qed.

(** X12: history elements that are not objects (strings, numbers,
    booleans, null, arrays) are not rejected: each reaches the provider
    as a turn of the role "model" with the empty text. *)
Theorem non_object_history_elements w req body :
  chat_post req →
  readJson req = inr body →
  trim (message_of body) ≠ "" →
  Forall (fun msg => ∀ props, msg ≠ JObj props) (conversationHistory_of body) →
  events (serve w req) =
  [ProviderCall
     (system_turn :: greeting_turn ::
      replicate (length (conversationHistory_of body))
        {| role := "model"; parts := [ {| text := "" |} ] |})
     (message_of body)].
Proof.
  intros Hpost Hbody Hmsg Hall.
  rewrite (serve_chat _ _ Hpost). unfold chat_outcome.
  by rewrite Hbody, (bool_decide_eq_false_2 _ Hmsg), (non_object_turns _ Hall).
Qed.

(** X13: the module throws its missing-key error, before the server is
    created, exactly when GOOGLE_AI_KEY is unset or empty; otherwise it
    goes on to call [listen].  A PORT set to the empty string counts as
    unset: the port is 3001. *)
Theorem missing_key_error_iff (e : gmap string string) :
  (startup e = inl (Error "Missing required environment variable: GOOGLE_AI_KEY") ↔
   e !! "GOOGLE_AI_KEY" = None ∨ e !! "GOOGLE_AI_KEY" = Some "") ∧
  ((∃ call, startup e = inr call) ↔
   ∃ key, e !! "GOOGLE_AI_KEY" = Some key ∧ key ≠ "") ∧
  (e !! "PORT" = Some "" → port e = number_of_Z 3001).
Proof.
  unfold startup, truthy_opt, truthy.
  destruct (e !! "GOOGLE_AI_KEY") as [key|]; simpl.
  - case_bool_decide as Hk; simpl.
    + subst key. split; [split; eauto|]. split.
      * split; [by intros [? ?] | by intros (key & [= <-] & ?)].
      * intros Hp. unfold port. by rewrite Hp.
    + split; [split; [done | intros [?|[= ?]]; done]|]. split.
      * split; eauto.
      * intros Hp. unfold port. by rewrite Hp.
  - split; [split; eauto|]. split.
    + split; [by intros [? ?] | by intros (key & ? & ?)].
    + intros Hp. unfold port. by rewrite Hp.
Qed.

(** X14: when a history element has a content that [String] cannot
    convert, the inner [catch] answers 500 with the TypeError's message
    as details, and the provider is not called. *)
Theorem unconvertible_history_is_answered_500 w req body e :
  chat_post req →
  readJson req = inr body →
  trim (message_of body) ≠ "" →
  history_turns (conversationHistory_of body) = inl e →
  serve w req = returned (json_response w req 500 (failure_payload e)) [].
Proof.
  intros Hpost Hbody Hmsg Hturns.
  rewrite (serve_chat _ _ Hpost). unfold chat_outcome.
  by rewrite Hbody, (bool_decide_eq_false_2 _ Hmsg), Hturns.
Qed.

End Server.

(** * The listener, header check included *)

Section ListenerProperties.
Context `{Host}.

Implicit Types (w : World) (req : Request).

(** With an allowed origin that passes the check, the listener is the
    handler. *)
Lemma on_request_legal w req :
  checkInvalidHeaderChar (allow_origin w req) = false → on_request w req = serve w req.
Proof. intros Hl. unfold on_request, listener, serve. by rewrite Hl. Qed.

(** With one that does not, the first statement throws: nothing is
    written, and the rejection ends the process. *)
Lemma on_request_illegal w req :
  checkInvalidHeaderChar (allow_origin w req) = true →
  on_request w req = {| response := fresh_response; events := []; exit_code := Some 1 |}.
Proof. intros Hl. unfold on_request, listener. by rewrite Hl. Qed.

(** Every other header value the listener sets is a constant that passes
    the check. *)
Lemma constant_header_values_pass :
  Forall (fun val => checkInvalidHeaderChar val = false) constant_header_values.
Proof. unfold constant_header_values, mimeTypes. simpl. repeat constructor. Qed.

(** C5: an OPTIONS request, whatever its path, for which the allowed
    origin is a legal header value is answered 204 with an empty body
    and the three CORS headers, and nothing else happens: no route runs,
    no file is looked at, the provider is not called, and the process
    stays up. *)
Theorem preflight_is_answered_204 w req :
  method req = "OPTIONS" →
  checkInvalidHeaderChar (allow_origin w req) = false →
  on_request w req =
  {| response := {| res_headers := cors_headers w req; statusCode := 204; res_body := Some "" |};
     events := [];
     exit_code := None |} ∧
  carries_cors w req (response (on_request w req)).
Proof.
  intros Hm Hl. rewrite (on_request_legal _ _ Hl), (preflight_outcome _ _ Hm).
  split; [done|]. apply cors_headers_carry.
Qed.

(** C3: a POST to /api/chat for which the allowed origin is a legal
    header value, and whose body cannot be parsed, or whose provider call
    throws, or whose reply throws when its text is asked for, is answered
    500 with the JSON body
    [{error: "Internal server error", details: <the message of the error>}],
    and the listener returns normally, so the process stays up. *)
Theorem failures_are_answered_500 w req e :
  checkInvalidHeaderChar (allow_origin w req) = false →
  chat_post req →
  (readJson req = inl e ∨
   ∃ body turns,
     readJson req = inr body ∧
     trim (message_of body) ≠ "" ∧
     history_turns (conversationHistory_of body) = inr turns ∧
     let history := system_turn :: greeting_turn :: turns in
     (sendMessage w history (message_of body) = inl e ∨
      ∃ reply, sendMessage w history (message_of body) = inr reply ∧ reply_text reply = inl e)) →
  response (on_request w req) = json_response w req 500 (failure_payload e) ∧
  exit_code (on_request w req) = None.
Proof.
  intros Hl Hpost Hfail. rewrite (on_request_legal _ _ Hl).
  by apply failure_outcome.
Qed.

(** X2: a request is answered exactly when the allowed origin computed
    for it is a legal header value.  If it is, the listener returns
    without throwing and the response has been ended, whatever the
    request, the file system and the provider do.  If it is not, the
    first [setHeader] throws outside every [try]: nothing is written and
    the unhandled rejection ends the process with code 1. *)
Theorem every_request_is_answered w req :
  (checkInvalidHeaderChar (allow_origin w req) = false →
   exit_code (on_request w req) = None ∧
   is_Some (res_body (response (on_request w req)))) ∧
  (checkInvalidHeaderChar (allow_origin w req) = true →
   on_request w req = {| response := fresh_response; events := []; exit_code := Some 1 |}).
Proof.
  split; [|apply on_request_illegal].
  intros Hl. rewrite (on_request_legal _ _ Hl). split; [apply handler_returns|].
  rewrite serve_outcome. unfold outcome_of, chat_outcome, static_outcome_of, sent_response.
  repeat (case_match; simpl); eauto.
Qed.

End ListenerProperties.

(** * Properties of the chat page *)

Section PageProperties.
Context `{Host}.
Variable NumberToBoolean : number → bool.

Implicit Types (s : Page) (fetch : string → fetch_result).

Local Ltac run_page :=
  unfold after_submit, submit, addMessage, showTypingIndicator, attempt,
    settle, raise, read, draw, set_history, set_input, mbind, P_bind, mret, P_ret; simpl.

Lemma slice_0_m1_snoc {A} (l : list A) x : slice_0_m1 (l ++ [x]) = l.
Proof.
  unfold slice_0_m1. rewrite length_app. simpl.
  replace (length l + 1 - 1)%nat with (length l) by lia.
  by rewrite take_app_length.
Qed.

Lemma truthy_true (m : string) : m ≠ "" → truthy m = true.
Proof. intros Hm. unfold truthy. by rewrite (bool_decide_eq_false_2 _ Hm). Qed.

(** The page up to the moment [fetch] settles. *)
Lemma submit_unfold fetch s :
  let m := trim (userInput s) in
  let sent := (conversationHistory s ++ [turn "user" (JStr m)])%list in
  let body := request_body m sent in
  let waiting :=
    {| conversationHistory := sent; userInput := "";
       shown := shown s ++ [AddMessage "user" ("<p>" +:+ m +:+ "</p>")] ++
                [ShowTypingIndicator] ++ [Fetch body] |} in
  let sorry :=
    AddMessage "bot" "<p>Sorry, I encountered an error. Please try again later.</p>" in
  let failed (after : Page) :=
    (inr tt,
     {| conversationHistory := slice_0_m1 (conversationHistory after); userInput := "";
        shown := shown after ++ [sorry] |}) in
  m ≠ "" →
  submit NumberToBoolean fetch s =
  match fetch body with
  | FetchRejected e => failed waiting
  | FetchResponse false _ => failed waiting
  | FetchResponse true (inl e) => failed waiting
  | FetchResponse true (inr data) =>
      match data_response data with
      | inl e => failed waiting
      | inr response =>
          if ToBoolean NumberToBoolean response
          then
            let reply := default JNull response in
            let answered :=
              {| conversationHistory := (sent ++ [turn "assistant" reply])%list;
                 userInput := ""; shown := shown waiting |} in
            match ToString reply with
            | inr printed =>
                (inr tt,
                 {| conversationHistory := conversationHistory answered; userInput := "";
                    shown := shown waiting ++ [AddMessage "bot" ("<p>" +:+ printed +:+ "</p>")] |})
            | inl e => failed answered
            end
          else (inr tt, waiting)
      end
  end.
Proof.
  intros m sent body waiting sorry failed Hm. run_page.
  fold m. rewrite (truthy_true _ Hm). simpl. fold sent. fold body.
  rewrite <- !app_assoc. simpl.
  destruct (fetch body) as [e|[|] [e|data]]; simpl; try done.
  destruct (data_response data) as [e|response]; simpl; [done|].
  destruct (ToBoolean _ response); simpl; [|done].
  by destruct (ToString _).
Qed.

Lemma blank_submit fetch s : trim (userInput s) = "" → submit NumberToBoolean fetch s = (inr tt, s).
Proof. intros Hb. run_page. by rewrite Hb. Qed.

(** A submit with a message adds to what the page shows. *)
Lemma submit_shows_more fetch s :
  trim (userInput s) ≠ "" →
  (length (shown s) < length (shown (after_submit NumberToBoolean fetch s)))%nat.
Proof.
  intros Hm. unfold after_submit. rewrite (submit_unfold fetch s Hm).
  destruct (fetch _) as [e|[|] [e|data]]; simpl; rewrite ?length_app; simpl; try lia.
  destruct (data_response data) as [e|response]; simpl; rewrite ?length_app; simpl; try lia.
  destruct (ToBoolean _ response); simpl; rewrite ?length_app; simpl; try lia.
  destruct (ToString _); simpl; rewrite ?length_app; simpl; lia.
Qed.

(** X15: a submit leaves the page exactly as it was (nothing shown, no
    request sent, history and input untouched) if and only if the input
    is empty or white space only. *)
Theorem blank_input_is_ignored fetch s :
  after_submit NumberToBoolean fetch s = s ↔ trim (userInput s) = "".
Proof.
  split.
  - intros Hsame. destruct (decide (trim (userInput s) = "")) as [Hb|Hb]; [done|].
    pose proof (submit_shows_more fetch s Hb) as Hlen. rewrite Hsame in Hlen. lia.
  - intros Hb. unfold after_submit. by rewrite (blank_submit fetch s Hb).
Qed.

(** X16: when the server answers ok with a non-empty string reply, the
    history grows by the user turn and the assistant turn, in that order;
    the request carried the trimmed message and the history with the new
    user turn already in it; the input is cleared and the reply is
    shown. *)
Theorem successful_exchange fetch s data reply :
  let m := trim (userInput s) in
  let sent := (conversationHistory s ++ [turn "user" (JStr m)])%list in
  m ≠ "" →
  fetch (request_body m sent) = FetchResponse true (inr data) →
  data_response data = inr (Some (JStr reply)) →
  reply ≠ "" →
  submit NumberToBoolean fetch s =
  (inr tt,
   {| conversationHistory := (sent ++ [turn "assistant" (JStr reply)])%list;
      userInput := "";
      shown := shown s ++
        [AddMessage "user" ("<p>" +:+ m +:+ "</p>");
         ShowTypingIndicator;
         Fetch (request_body m sent);
         AddMessage "bot" ("<p>" +:+ reply +:+ "</p>")] |}).
Proof.
  intros m sent Hm Hfetch Hdata Hreply.
  rewrite (submit_unfold fetch s Hm). fold m sent. rewrite Hfetch, Hdata. simpl.
  rewrite (truthy_true _ Hreply). by rewrite <- !app_assoc.
Qed.

(** A submit that nothing interrupts is the first run followed by the
    second. *)
Lemma submit_two_runs fetch s :
  submit NumberToBoolean fetch s =
  match submit_begin s with
  | (inr (Some body), s') => submit_settle NumberToBoolean (fetch body) s'
  | (inr None, s') => (inr tt, s')
  | (inl e, s') => (inl e, s')
  end.
Proof.
  unfold submit, submit_begin, submit_settle, addMessage, showTypingIndicator, attempt,
    settle, raise, read, draw, set_history, set_input, mbind, P_bind, mret, P_ret. simpl.
  by destruct (truthy (trim (userInput s))).
Qed.

Lemma submit_begin_sends s :
  let m := trim (userInput s) in
  let sent := (conversationHistory s ++ [turn "user" (JStr m)])%list in
  m ≠ "" →
  submit_begin s =
  (inr (Some (request_body m sent)),
   {| conversationHistory := sent; userInput := "";
      shown := shown s ++ [AddMessage "user" ("<p>" +:+ m +:+ "</p>");
                           ShowTypingIndicator; Fetch (request_body m sent)] |}).
Proof.
  intros m sent Hm.
  unfold submit_begin, addMessage, showTypingIndicator, settle, read, draw, set_history,
    set_input, mbind, P_bind, mret, P_ret. simpl.
  fold m. rewrite (truthy_true _ Hm). simpl. by rewrite <- !app_assoc.
Qed.

Lemma submit_settle_failed result s :
  failed result →
  submit_settle NumberToBoolean result s =
  (inr tt,
   {| conversationHistory := slice_0_m1 (conversationHistory s);
      userInput := userInput s;
      shown := shown s ++
        [AddMessage "bot" "<p>Sorry, I encountered an error. Please try again later.</p>"] |}).
Proof. by intros [[e ->] | [[json ->] | [[e ->] | ->]]]. Qed.

(** X17: when a request fails (fetch rejects, the response is not ok,
    its body is not JSON, or the JSON is null), the handler shows the
    apology and removes the last turn of the history as it stands at
    that moment.  When no other submit ran since the request was sent,
    that is the user turn pushed for it, and the history is what it was
    before the submit.  When a second message was submitted while the
    first was in flight and the first then fails, it is the second
    message's turn that is removed, and the failed message's turn
    stays. *)
Theorem failed_exchange_drops_last_turn result :
  failed result →
  (∀ s,
     submit_settle NumberToBoolean result s =
     (inr tt,
      {| conversationHistory := slice_0_m1 (conversationHistory s);
         userInput := userInput s;
         shown := shown s ++
           [AddMessage "bot"
              "<p>Sorry, I encountered an error. Please try again later.</p>"] |})) ∧
  (∀ fetch s,
     let m := trim (userInput s) in
     m ≠ "" →
     fetch (request_body m (conversationHistory s ++ [turn "user" (JStr m)])%list) = result →
     conversationHistory (after_submit NumberToBoolean fetch s) = conversationHistory s) ∧
  (∀ s first second,
     trim first ≠ "" →
     trim second ≠ "" →
     conversationHistory
       (on_page (run NumberToBoolean {| on_page := s; in_flight := [] |}
                   [Submit first; Submit second; Settle 0 result]))
     = (conversationHistory s ++ [turn "user" (JStr (trim first))])%list).
Proof.
  intros Hfailed. split; [|split].
  - intros s. by apply submit_settle_failed.
  - intros fetch s m Hm Hfetch. unfold after_submit.
    rewrite submit_two_runs, (submit_begin_sends s Hm). fold m. rewrite Hfetch.
    rewrite (submit_settle_failed _ _ Hfailed). simpl. apply slice_0_m1_snoc.
  - intros s first second Hfirst Hsecond. unfold run. simpl.
    unfold mbind, P_bind, set_input. simpl.
    rewrite (submit_begin_sends
               {| conversationHistory := conversationHistory s; userInput := first;
                  shown := shown s |} Hfirst). simpl.
    rewrite (submit_begin_sends
               {| conversationHistory :=
                    (conversationHistory s ++ [turn "user" (JStr (trim first))])%list;
                  userInput := second;
                  shown := shown s ++
                    [AddMessage "user" ("<p>" +:+ trim first +:+ "</p>");
                     ShowTypingIndicator;
                     Fetch (request_body (trim first)
                              (conversationHistory s ++ [turn "user" (JStr (trim first))]))]
               |} Hsecond). simpl.
    rewrite (submit_settle_failed _ _ Hfailed). simpl. apply slice_0_m1_snoc.
Qed.

(** X18: when the response is ok but carries no reply (the [response]
    field is missing, empty, or otherwise falsy), the user turn stays in
    the history without an answer, and nothing is shown after the typing
    indicator. *)
Theorem empty_reply_keeps_user_turn fetch s data response :
  let m := trim (userInput s) in
  let sent := (conversationHistory s ++ [turn "user" (JStr m)])%list in
  m ≠ "" →
  fetch (request_body m sent) = FetchResponse true (inr data) →
  data_response data = inr response →
  ToBoolean NumberToBoolean response = false →
  submit NumberToBoolean fetch s =
  (inr tt,
   {| conversationHistory := sent;
      userInput := "";
      shown := shown s ++
        [AddMessage "user" ("<p>" +:+ m +:+ "</p>");
         ShowTypingIndicator;
         Fetch (request_body m sent)] |}).
Proof.
  intros m sent Hm Hfetch Hdata Hfalsy.
  rewrite (submit_unfold fetch s Hm). fold m sent. by rewrite Hfetch, Hdata, Hfalsy.
Qed.

(** X19: neither run of the submit handler throws, whatever the page
    and the network, and each changes the history at its end only.  The
    first run leaves it (blank input) or appends the user turn.  The
    second removes the last turn, leaves the history, or appends the
    assistant turn.  Turns before the last are never touched, however
    submits overlap. *)
Theorem handler_runs_touch_only_the_end s result :
  (∃ sent, (submit_begin s).1 = inr sent) ∧
  (conversationHistory (submit_begin s).2 = conversationHistory s ∨
   conversationHistory (submit_begin s).2
     = (conversationHistory s ++ [turn "user" (JStr (trim (userInput s)))])%list) ∧
  (submit_settle NumberToBoolean result s).1 = inr tt ∧
  (conversationHistory (submit_settle NumberToBoolean result s).2
     = slice_0_m1 (conversationHistory s) ∨
   conversationHistory (submit_settle NumberToBoolean result s).2 = conversationHistory s ∨
   ∃ reply, conversationHistory (submit_settle NumberToBoolean result s).2
            = (conversationHistory s ++ [turn "assistant" reply])%list).
Proof.
  split; [|split].
  - destruct (decide (trim (userInput s) = "")) as [Hb|Hb].
    + exists None.
      unfold submit_begin, read, mbind, P_bind, mret, P_ret. simpl. by rewrite Hb.
    + rewrite (submit_begin_sends s Hb). eauto.
  - destruct (decide (trim (userInput s) = "")) as [Hb|Hb].
    + left. unfold submit_begin, read, mbind, P_bind, mret, P_ret. simpl. by rewrite Hb.
    + right. by rewrite (submit_begin_sends s Hb).
  - unfold submit_settle, addMessage, attempt, settle, raise, draw, set_history,
      mbind, P_bind, mret, P_ret.
    destruct result as [e|[|] [e|data]]; simpl; auto.
    destruct (data_response data) as [e|response]; simpl; auto.
    destruct (ToBoolean _ response); simpl; auto.
    destruct (ToString _); simpl; rewrite ?slice_0_m1_snoc; eauto.
Qed.

End PageProperties.

(** * The page and the server together *)

Section Together.
Context `{Host}.
Local Open Scope list_scope.
Variable NumberToBoolean : number → bool.

Implicit Types (s : Page) (fetch : string → fetch_result) (w : World) (req : Request).

Lemma trimEnd_idempotent t : trimEnd (trimEnd t) = trimEnd t.
Proof.
  induction t as [|c r IH]; simpl; [done|].
  destruct (trimEnd r) as [|c' r'] eqn:Hr.
  - destruct (is_white_space c) eqn:Hc; simpl; [done | by rewrite Hc].
  - simpl in *. by rewrite IH.
Qed.

Lemma trimStart_fixed c r : is_white_space c = false → trimStart (String c r) = String c r.
Proof. intros Hc. simpl. by rewrite Hc. Qed.

Lemma trimEnd_head c r :
  is_white_space c = false → ∃ r', trimEnd (String c r) = String c r'.
Proof. intros Hc. simpl. rewrite Hc. destruct (trimEnd r); eauto. Qed.

(** Trimming a trimmed string changes nothing. *)
Lemma trim_idempotent t : trim (trim t) = trim t.
Proof.
  unfold trim.
  destruct (trimStart_head t) as [-> | (c & r & -> & Hc)]; [done|].
  destruct (trimEnd_head c r Hc) as [r' Hr'].
  rewrite Hr', (trimStart_fixed c r' Hc), <- Hr'. apply trimEnd_idempotent.
Qed.

Lemma page_turn_converts v :
  page_turn v → ∃ c, history_turn v = inr c ∧ sent_as v c.
Proof.
  intros (r & t & Hr & ->).
  exists {| role := if bool_decide (r = "user") then "user" else "model";
            parts := [ {| text := t |} ] |}.
  split; [done|]. exists r, t. split; [done|]. split; [done|].
  destruct Hr as [-> | ->]; [left | right]; done.
Qed.

Lemma page_turns_convert_all (l : list value) :
  Forall page_turn l → ∃ turns, history_turns l = inr turns ∧ Forall2 sent_as l turns.
Proof.
  induction 1 as [|v l Hv _ (turns & Hturns & Hall)]; simpl.
  - exists []. split; [done | constructor].
  - destruct (page_turn_converts v Hv) as (c & -> & Hc). rewrite Hturns.
    exists (c :: turns). split; [done | by constructor].
Qed.

Lemma history_turns_snoc (l : list value) v turns c :
  history_turns l = inr turns →
  history_turn v = inr c →
  history_turns (l ++ [v])%list = inr (turns ++ [c])%list.
Proof.
  revert turns. induction l as [|x l IH]; intros turns; simpl.
  - intros [= <-] ->. done.
  - destruct (history_turn x) as [e|cx]; [done|].
    destruct (history_turns l) as [e|cs]; [done|].
    intros [= <-] Hv. by rewrite (IH cs eq_refl Hv).
Qed.

(** X20: a history in which every turn was written by the page (role
    "user" or "assistant", string content) stays such a history through
    a submit, provided a reply the server delivers is a string. *)
Theorem page_turns_are_kept fetch s :
  let m := trim (userInput s) in
  let body := request_body m (conversationHistory s ++ [turn "user" (JStr m)])%list in
  Forall page_turn (conversationHistory s) →
  (∀ data v,
     fetch body = FetchResponse true (inr data) →
     data_response data = inr (Some v) →
     ToBoolean NumberToBoolean (Some v) = true →
     ∃ reply, v = JStr reply) →
  Forall page_turn (conversationHistory (after_submit NumberToBoolean fetch s)).
Proof.
  intros m body Hall Hstr. unfold after_submit.
  destruct (decide (trim (userInput s) = "")) as [Hb|Hb].
  { by rewrite (blank_submit NumberToBoolean fetch s Hb). }
  rewrite (submit_unfold NumberToBoolean fetch s Hb). fold m body.
  assert (Forall page_turn (conversationHistory s ++ [turn "user" (JStr m)])%list) as Hsent.
  { apply Forall_app. split; [done|]. constructor; [|constructor].
    exists "user", m. auto. }
  destruct (fetch body) as [e|[|] [e|data]] eqn:Hfetch; simpl;
    rewrite ?slice_0_m1_snoc; try done.
  destruct (data_response data) as [e|response] eqn:Hdata; simpl;
    rewrite ?slice_0_m1_snoc; try done.
  destruct (ToBoolean _ response) eqn:Htrue; simpl; [|done].
  destruct response as [v|]; [|done].
  destruct (Hstr data v eq_refl Hdata Htrue) as [reply ->]. simpl.
  apply Forall_app. split; [done|]. constructor; [|constructor].
  exists "assistant", reply. auto.
Qed.

(** X21: the server converts every history written by the page: no
    element makes the conversion throw, the turns keep their order and
    their texts, "user" stays "user" and "assistant" becomes "model". *)
Theorem page_history_converts (l : list value) :
  Forall page_turn l →
  ∃ turns, history_turns l = inr turns ∧ Forall2 sent_as l turns.
Proof. apply page_turns_convert_all. Qed.

(** X22: the page pushes the new user turn into the history before it
    sends the request, and the server appends the message again.  So,
    when the server parses what the page sent, the one provider call has
    the message as the last turn of the history and as the message: the
    provider sees the user's text twice, as its last two turns.  The
    message the page sends is already trimmed and never counts as blank
    on the server. *)
Theorem message_reaches_provider_twice w req fetch s :
  let m := trim (userInput s) in
  let sent := (conversationHistory s ++ [turn "user" (JStr m)])%list in
  m ≠ "" →
  Forall page_turn (conversationHistory s) →
  chat_post req →
  body_stream req = inr (request_body m sent) →
  JSON_parse (request_body m sent) =
    inr (JObj [("message", JStr m); ("conversationHistory", JArr sent)]) →
  Fetch (request_body m sent) ∈ shown (after_submit NumberToBoolean fetch s) ∧
  trim m = m ∧
  ∃ turns,
    Forall2 sent_as (conversationHistory s) turns ∧
    events (serve w req) =
      [ProviderCall (system_turn :: greeting_turn :: turns ++ [user_content m])%list m] ∧
    turns_seen (system_turn :: greeting_turn :: turns ++ [user_content m])%list m =
      (system_turn :: greeting_turn :: turns ++ [user_content m; user_content m])%list.
Proof.
  intros m sent Hm Hall Hpost Hstream Hparse.
  assert (trim m = m) as Htrim by apply trim_idempotent.
  split; [|split; [exact Htrim|]].
  - unfold after_submit. rewrite (submit_unfold NumberToBoolean fetch s Hm). fold m sent.
    assert (∀ (a b : page_event) l',
              Fetch (request_body m sent) ∈ (shown s ++ [a; b; Fetch (request_body m sent)]) ++ l')
      as Hin by (intros; set_solver).
    assert (∀ a b : page_event,
              Fetch (request_body m sent) ∈ shown s ++ [a; b; Fetch (request_body m sent)])
      as Hin' by (intros; set_solver).
    destruct (fetch _) as [e|[|] [e|data]]; simpl; try apply Hin.
    destruct (data_response data) as [e|response]; simpl; try apply Hin.
    destruct (ToBoolean _ response); simpl; [|apply Hin'].
    destruct (ToString _); simpl; apply Hin.
  - destruct (page_turns_convert_all _ Hall) as (turns & Hturns & Hsent).
    exists turns. split; [exact Hsent|].
    assert (readJson req =
            inr (JObj [("message", JStr m); ("conversationHistory", JArr sent)])) as Hbody
      by (unfold readJson; by rewrite Hstream).
    set (payload := JObj [("message", JStr m); ("conversationHistory", JArr sent)]) in *.
    assert (message_of payload = m) as Hmsg by reflexivity.
    assert (conversationHistory_of payload = sent) as Hhist by reflexivity.
    split.
    + rewrite (relay_outcome w req payload (turns ++ [user_content m]) Hpost Hbody).
      * simpl. by rewrite Hmsg.
      * by rewrite Hmsg, Htrim.
      * rewrite Hhist. by apply history_turns_snoc.
    + unfold turns_seen. simpl. by rewrite <- app_assoc.
Qed.

End Together.

(** * The model at work

    The statements above, applied to the sample platform and worlds. *)

Section Worked.
Import Sample.
Existing Instance sample_host.

Lemma missing_or_blank_message_is_rejected_witness :
  serve (world answering) (post_chat blank) =
  {| response :=
       json_response (world answering) (post_chat blank) 400
         (JObj [("error", JStr "Message is required")]);
     events := [];
     exit_code := None |}.
Proof.
  apply (missing_or_blank_message_is_rejected (H:=sample_host) _ _ blank).
  - split; reflexivity.
  - reflexivity.
  - right. exists "   ". split; reflexivity.
Defined.

Lemma non_string_message_is_rejected_witness :
  message_of (H:=sample_host) forty_two = "" ∧
  serve (world answering) (post_chat forty_two) =
  {| response :=
       json_response (world answering) (post_chat forty_two) 400
         (JObj [("error", JStr "Message is required")]);
     events := [];
     exit_code := None |}.
Proof.
  apply (non_string_message_is_rejected (H:=sample_host) _ _ forty_two (JNum (Some 42))).
  - split; reflexivity.
  - reflexivity.
  - reflexivity.
  - discriminate.
Defined.

Lemma role_normalization_witness :
  normalize_role (Some (JStr "assistant")) = "model" ∧
  role {| role := "model"; parts := [ {| text := "b" |} ] |} =
    normalize_role (get (Some (JObj [("role", JStr "system"); ("content", JStr "b")])) "role").
Proof.
  destruct (role_normalization (H:=sample_host) (Some (JStr "assistant"))) as (_ & Hother & _ & _ & Hturn).
  split.
  - apply Hother. discriminate.
  - apply Hturn. reflexivity.
Defined.

Lemma entry_document_fallback_witness :
  (response (serve (world answering) (request "GET" "/does-not-exist.xyz" None "")) =
     file_response (world answering) (request "GET" "/does-not-exist.xyz" None "")
       "text/html" "<html>CHEESA</html>" ∧
   statusCode (response (serve (world answering) (request "GET" "/does-not-exist.xyz" None "")))
     = 200 ∧
   exit_code (serve (world answering) (request "GET" "/does-not-exist.xyz" None "")) = None) ∧
  (response (serve (world answering) (request "GET" "/../../etc/passwd" None "")) =
     file_response (world answering) (request "GET" "/../../etc/passwd" None "")
       "text/html" "<html>CHEESA</html>" ∧
   statusCode (response (serve (world answering) (request "GET" "/../../etc/passwd" None "")))
     = 200 ∧
   exit_code (serve (world answering) (request "GET" "/../../etc/passwd" None "")) = None) ∧
  (response (serve (world answering) (request "GET" "/docs" None "")) =
     file_response (world answering) (request "GET" "/docs" None "")
       "text/html" "<html>docs</html>" ∧
   statusCode (response (serve (world answering) (request "GET" "/docs" None ""))) = 200 ∧
   exit_code (serve (world answering) (request "GET" "/docs" None "")) = None).
Proof.
  split; [|split].
  - apply (entry_document_fallback (H:=sample_host) _ _ "/does-not-exist.xyz").
    + reflexivity.
    + reflexivity.
    + left. split; reflexivity.
  - apply (entry_document_fallback (H:=sample_host) _ _ "/../../etc/passwd").
    + reflexivity.
    + reflexivity.
    + left. split; reflexivity.
  - apply (entry_document_fallback (H:=sample_host) _ _ "/docs").
    + reflexivity.
    + reflexivity.
    + right. split; reflexivity.
Defined.

Lemma cors_on_every_response_witness :
  allow_origin deployed_world (request "GET" "/" (Some "http://elsewhere") "")
    = "https://cheesa.vercel.app" ∧
  allow_origin (world answering) (request "GET" "/" (Some "http://elsewhere") "")
    = "http://elsewhere" ∧
  allow_origin (world answering) (request "GET" "/" None "") = "*".
Proof.
  split; [|split].
  - apply (proj1 (proj2 (cors_on_every_response (H:=sample_host) deployed_world
             (request "GET" "/" (Some "http://elsewhere") "")))); [reflexivity | discriminate].
  - apply (proj1 (proj2 (proj2 (cors_on_every_response (H:=sample_host) (world answering)
             (request "GET" "/" (Some "http://elsewhere") ""))))); [reflexivity.. | discriminate].
  - apply (proj2 (proj2 (proj2 (cors_on_every_response (H:=sample_host) (world answering)
             (request "GET" "/" None ""))))); reflexivity.
Defined.

Lemma startup_requires_api_key_witness :
  startup (∅ : gmap string string) =
    inl (Error "Missing required environment variable: GOOGLE_AI_KEY") ∧
  startup ({[ "GOOGLE_AI_KEY" := "secret"; "PORT" := "8080" ]} : gmap string string) =
    inr {| listen_port := Some 8080; listen_host := "0.0.0.0" |} ∧
  port ({[ "GOOGLE_AI_KEY" := "secret" ]} : gmap string string) = Some 3001.
Proof.
  split; [|split].
  - apply (proj1 (startup_requires_api_key (H:=sample_host) ∅)). reflexivity.
  - destruct (proj2 (startup_requires_api_key (H:=sample_host)
                        {[ "GOOGLE_AI_KEY" := "secret"; "PORT" := "8080" ]}) "secret")
      as (Hlisten & _ & Hport); [reflexivity | discriminate |].
    rewrite Hlisten, (Hport "8080"); [reflexivity | reflexivity | discriminate].
  - destruct (proj2 (startup_requires_api_key (H:=sample_host)
                        {[ "GOOGLE_AI_KEY" := "secret" ]}) "secret")
      as (_ & Hdefault & _); [reflexivity | discriminate |].
    apply Hdefault. reflexivity.
Defined.

Lemma non_array_history_is_empty_witness :
  events (serve (world answering) (post_chat hi_with_text_history)) =
    [ProviderCall [system_turn; greeting_turn] "hi"] ∧
  response (serve (world answering) (post_chat hi_with_text_history)) =
    json_response (world answering) (post_chat hi_with_text_history) 200
      (JObj [("response", JStr "Hello from CHEEStron")]).
Proof.
  destruct (non_array_history_is_empty (H:=sample_host) (world answering) (post_chat hi_with_text_history)
              hi_with_text_history "hi" (JStr "none")) as (_ & Hev & Hok).
  - split; reflexivity.
  - reflexivity.
  - reflexivity.
  - discriminate.
  - reflexivity.
  - discriminate.
  - split; [exact Hev|].
    apply (Hok {| reply_text := inr "Hello from CHEEStron" |}); reflexivity.
Defined.

(** The history of the specification's example: the second turn, sent as
    "system", reaches the provider as "model". *)
Example history_ab_roles :
  history_turns history_ab =
  inr [ {| role := "user"; parts := [ {| text := "a" |} ] |};
        {| role := "model"; parts := [ {| text := "b" |} ] |} ].
Proof. reflexivity. Qed.

(** A reply whose text is the empty string is a reply: it is relayed with
    status 200. *)
Example empty_reply_is_relayed :
  statusCode (response (serve (world silent) (post_chat hi))) = 200 ∧
  res_body (response (serve (world silent) (post_chat hi))) =
    Some (JSON_stringify (JObj [("response", JStr "")])).
Proof. split; reflexivity. Qed.

(** A history element whose content is an object with a [toString]
    property of its own cannot be converted: the request ends in 500
    before the provider is called. *)
Example unconvertible_content :
  history_turn (JObj [("role", JStr "user"); ("content", JObj [("toString", JNull)])]) =
  inl (Error "Cannot convert object to primitive value").
Proof. reflexivity. Qed.

Example blank_and_trimmed : trim "  a b  " = "a b" ∧ trim "   " = "".
Proof. split; reflexivity. Qed.

End Worked.

(** * More of the model at work *)

Section WorkedMore.
Import Sample SamplePage.
Local Open Scope list_scope.

Lemma reply_is_relayed_verbatim_witness :
  serve (H:=sample_host) (world answering) (post_chat hi) =
  returned
    (json_response (H:=sample_host) (world answering) (post_chat hi) 200
       (JObj [("response", JStr "Hello from CHEEStron")]))
    [ProviderCall [system_turn; greeting_turn] "hi"].
Proof.
  apply (reply_is_relayed_verbatim (H:=sample_host) (world answering) (post_chat hi) hi []
           {| reply_text := inr "Hello from CHEEStron" |} "Hello from CHEEStron").
  - split; reflexivity.
  - reflexivity.
  - discriminate.
  - reflexivity.
  - reflexivity.
  - reflexivity.
Defined.

Lemma unparsable_url_is_answered_500_witness :
  statusCode (response (serve (H:=sample_host) (world answering)
                          (request "POST" "nonsense" None ""))) = 500.
Proof.
  destruct (unparsable_url_is_answered_500 (H:=sample_host) (world answering)
              (request "POST" "nonsense" None "") (Error "Invalid URL")) as [-> _];
    [discriminate | reflexivity | reflexivity].
Defined.

Lemma unmatched_route_is_answered_404_witness :
  serve (H:=sample_host) (world answering) (request "DELETE" "/api/chat" None "") =
  returned
    (plain_response (world answering) (request "DELETE" "/api/chat" None "")
       404 "Not Found") [].
Proof.
  apply (unmatched_route_is_answered_404 (H:=sample_host) (world answering)
           (request "DELETE" "/api/chat" None "") "/api/chat").
  - discriminate.
  - discriminate.
  - reflexivity.
  - intros [Hm _]. discriminate Hm.
Defined.

Lemma regular_file_is_served_witness :
  serve (H:=sample_host) (world answering) (request "GET" "/style.css" None "") =
  returned
    (file_response (world answering) (request "GET" "/style.css" None "")
       "text/css" "body{}")
    [FsStat "/srv/public/style.css"; FsRead "/srv/public/style.css"].
Proof.
  apply (regular_file_is_served (H:=sample_host) (world answering)
           (request "GET" "/style.css" None "") "/style.css" "body{}"); reflexivity.
Defined.

Lemma stat_failure_is_answered_500_witness :
  serve (H:=sample_host) locked_world (request "GET" "/style.css" None "") =
  returned
    (plain_response locked_world (request "GET" "/style.css" None "")
       500 "Internal Server Error")
    [FsStat "/srv/public/style.css"].
Proof.
  apply (stat_failure_is_answered_500 (H:=sample_host) locked_world
           (request "GET" "/style.css" None "") "/style.css" "EACCES");
    [reflexivity | reflexivity | reflexivity | discriminate].
Defined.

Lemma provider_is_called_at_most_once_witness :
  events (serve (H:=sample_host) (world answering) (post_chat hi)) =
    [ProviderCall [system_turn; greeting_turn] "hi"] ∧
  chat_post (H:=sample_host) (post_chat hi) ∧
  trim "hi" ≠ "" ∧
  ∃ turns, [system_turn; greeting_turn] = system_turn :: greeting_turn :: turns.
Proof.
  apply (provider_is_called_at_most_once (H:=sample_host) (world answering) (post_chat hi)).
  apply list_elem_of_singleton. reflexivity.
Defined.

Lemma files_are_touched_only_by_get_witness :
  method (request "GET" "/style.css" None "") = "GET" ∧
  ∀ history msg,
    ProviderCall history msg ∉
      events (serve (H:=sample_host) (world answering) (request "GET" "/style.css" None "")).
Proof.
  apply (files_are_touched_only_by_get (H:=sample_host) (world answering)
           (request "GET" "/style.css" None "") "/srv/public/style.css").
  left. apply elem_of_cons. left. reflexivity.
Defined.

Lemma status_400_iff_blank_witness :
  statusCode (response (serve (H:=sample_host) (world answering) (post_chat blank))) = 400.
Proof.
  apply (status_400_iff_blank (H:=sample_host) (world answering) (post_chat blank) blank).
  - split; reflexivity.
  - reflexivity.
  - reflexivity.
Defined.

Lemma non_object_history_elements_witness :
  events (serve (H:=page_host) (world answering) (post_chat odd_history)) =
  [ProviderCall
     (system_turn :: greeting_turn ::
      replicate 3 {| role := "model"; parts := [ {| text := "" |} ] |})
     "hi"].
Proof.
  apply (non_object_history_elements (H:=page_host) (world answering) (post_chat odd_history)
           odd_history).
  - split; reflexivity.
  - reflexivity.
  - discriminate.
  - repeat constructor; discriminate.
Defined.

Lemma unconvertible_history_is_answered_500_witness :
  serve (H:=page_host) (world answering) (post_chat unconvertible_history) =
  returned
    (json_response (H:=page_host) (world answering) (post_chat unconvertible_history) 500
       (failure_payload (Error "Cannot convert object to primitive value")))
    [].
Proof.
  apply (unconvertible_history_is_answered_500 (H:=page_host) (world answering)
           (post_chat unconvertible_history) unconvertible_history).
  - split; reflexivity.
  - reflexivity.
  - discriminate.
  - reflexivity.
Defined.

Lemma blank_input_is_ignored_witness :
  after_submit (H:=page_host) nonzero (replying "Hello") idle_page = idle_page.
Proof. apply (blank_input_is_ignored (H:=page_host)). reflexivity. Defined.

Lemma successful_exchange_witness :
  conversationHistory (after_submit (H:=page_host) nonzero (replying "Hello") page) =
  earlier ++ [turn (H:=page_host) "user" (JStr "hi");
              turn (H:=page_host) "assistant" (JStr "Hello")].
Proof.
  unfold after_submit.
  rewrite (successful_exchange (H:=page_host) nonzero (replying "Hello") page
             (JObj [("response", JStr "Hello")]) "Hello");
    [reflexivity | discriminate | reflexivity | reflexivity | discriminate].
Defined.

Lemma empty_reply_keeps_user_turn_witness :
  conversationHistory (after_submit (H:=page_host) nonzero (replying "") page) =
  earlier ++ [turn (H:=page_host) "user" (JStr "hi")].
Proof.
  unfold after_submit.
  rewrite (empty_reply_keeps_user_turn (H:=page_host) nonzero (replying "") page
             (JObj [("response", JStr "")]) (Some (JStr "")));
    [reflexivity | discriminate | reflexivity | reflexivity | reflexivity].
Defined.

Lemma earlier_is_page_written : Forall (page_turn (H:=page_host)) earlier.
Proof.
  repeat constructor.
  - exists "user", "a". auto.
  - exists "assistant", "b". auto.
Qed.

Lemma page_turns_are_kept_witness :
  Forall (page_turn (H:=page_host))
    (conversationHistory (after_submit (H:=page_host) nonzero (replying "Hello") page)).
Proof.
  apply (page_turns_are_kept (H:=page_host) nonzero (replying "Hello") page).
  - exact earlier_is_page_written.
  - intros data v [= <-] [= <-] _. by exists "Hello".
Defined.

Lemma page_history_converts_witness :
  ∃ turns, history_turns (H:=page_host) earlier = inr turns ∧
           Forall2 (sent_as (H:=page_host)) earlier turns.
Proof. apply (page_history_converts (H:=page_host)). exact earlier_is_page_written. Defined.

Lemma message_reaches_provider_twice_witness :
  ∃ turns,
    Forall2 (sent_as (H:=page_host)) earlier turns ∧
    events (serve (H:=page_host) (world answering) (post_chat sent_payload)) =
      [ProviderCall (system_turn :: greeting_turn :: turns ++ [user_content "hi"]) "hi"] ∧
    turns_seen (system_turn :: greeting_turn :: turns ++ [user_content "hi"]) "hi" =
      system_turn :: greeting_turn :: turns ++ [user_content "hi"; user_content "hi"].
Proof.
  destruct (message_reaches_provider_twice (H:=page_host) nonzero (world answering)
              (post_chat sent_payload) offline page) as (_ & _ & Hseen).
  - discriminate.
  - exact earlier_is_page_written.
  - split; reflexivity.
  - reflexivity.
  - reflexivity.
  - exact Hseen.
Defined.

Lemma prompt_assembly_witness :
  events (serve (H:=sample_host) (world answering) (post_chat hi_with_history)) =
    [ProviderCall
       [system_turn; greeting_turn;
        {| role := "user"; parts := [ {| text := "a" |} ] |};
        {| role := "model"; parts := [ {| text := "b" |} ] |}]
       "hi"] ∧
  turns_seen
    [system_turn; greeting_turn;
     {| role := "user"; parts := [ {| text := "a" |} ] |};
     {| role := "model"; parts := [ {| text := "b" |} ] |}] "hi" =
    [system_turn; greeting_turn;
     {| role := "user"; parts := [ {| text := "a" |} ] |};
     {| role := "model"; parts := [ {| text := "b" |} ] |};
     {| role := "user"; parts := [ {| text := "hi" |} ] |}].
Proof.
  apply (prompt_assembly (H:=sample_host) (world answering) (post_chat hi_with_history)
           hi_with_history "hi" history_ab
           [ {| role := "user"; parts := [ {| text := "a" |} ] |};
             {| role := "model"; parts := [ {| text := "b" |} ] |} ]).
  - split; reflexivity.
  - reflexivity.
  - reflexivity.
  - discriminate.
  - left. reflexivity.
  - constructor; [|constructor; [|constructor]].
    + split; [left; split; reflexivity | left; exists "a"; split; reflexivity].
    + split; [right; split; [discriminate | reflexivity]
             | left; exists "b"; split; reflexivity].
Defined.

Lemma failures_are_answered_500_witness :
  response (on_request (H:=sample_host) (world unreachable) (post_chat hi)) =
    json_response (H:=sample_host) (world unreachable) (post_chat hi) 500
      (failure_payload (Error "fetch failed")) ∧
  exit_code (on_request (H:=sample_host) (world unreachable) (post_chat hi)) = None.
Proof.
  apply (failures_are_answered_500 (H:=sample_host) (world unreachable) (post_chat hi)
           (Error "fetch failed")).
  - reflexivity.
  - split; reflexivity.
  - right. exists hi, []. split; [reflexivity|]. split; [discriminate|].
    split; [reflexivity|]. left. reflexivity.
Defined.

(** C3 as the specification words it fails twice.  A reply whose text is
    the empty string is no usable text, yet nothing throws and it is
    relayed with status 200.  And where the allowed origin is not a legal
    header value, a POST with a malformed body gets no response at all:
    the process exits. *)
Lemma relay_failure_counterexamples :
  (sendMessage (world silent) [system_turn; greeting_turn] "hi"
     = inr {| reply_text := inr "" |} ∧
   statusCode (response (on_request (H:=sample_host) (world silent) (post_chat hi))) = 200 ∧
   statusCode (response (on_request (H:=sample_host) (world silent) (post_chat hi))) ≠ 500) ∧
  (readJson (H:=sample_host) (request "POST" "/api/chat" None "{oops")
     = inl (Error "Unexpected token in JSON") ∧
   exit_code (on_request (H:=sample_host) misconfigured_world
                (request "POST" "/api/chat" None "{oops")) = Some 1 ∧
   res_body (response (on_request (H:=sample_host) misconfigured_world
                         (request "POST" "/api/chat" None "{oops"))) = None).
Proof. repeat split; try reflexivity. vm_compute. discriminate. Qed.

Lemma preflight_is_answered_204_witness :
  statusCode (response (on_request (H:=sample_host) deployed_world
                          (request "OPTIONS" "/api/chat" None ""))) = 204 ∧
  events (on_request (H:=sample_host) deployed_world
            (request "OPTIONS" "/api/chat" None "")) = [].
Proof.
  destruct (preflight_is_answered_204 (H:=sample_host) deployed_world
              (request "OPTIONS" "/api/chat" None "")) as [-> _];
    [reflexivity | reflexivity | split; reflexivity].
Defined.

(** C5 as the specification words it fails where the allowed origin is
    not a legal header value: the OPTIONS request gets no response, and
    the process exits with code 1. *)
Lemma preflight_with_illegal_origin :
  method (request "OPTIONS" "/api/chat" None "") = "OPTIONS" ∧
  checkInvalidHeaderChar
    (allow_origin misconfigured_world (request "OPTIONS" "/api/chat" None "")) = true ∧
  exit_code (on_request (H:=sample_host) misconfigured_world
               (request "OPTIONS" "/api/chat" None "")) = Some 1 ∧
  res_body (response (on_request (H:=sample_host) misconfigured_world
                        (request "OPTIONS" "/api/chat" None ""))) = None ∧
  statusCode (response (on_request (H:=sample_host) misconfigured_world
                          (request "OPTIONS" "/api/chat" None ""))) ≠ 204.
Proof. repeat split; try reflexivity. vm_compute. discriminate. Qed.

(** C6 as the specification words it fails twice.  Where the entry
    document itself is missing, a GET for a path that does not exist is
    answered 404 "Not Found".  And a path below a regular file does not
    exist either, but [stat] reports it with ENOTDIR, not ENOENT, and the
    answer is 500 although the entry document is there. *)
Lemma fallback_counterexamples :
  (stat bare_world (resolved_path (H:=sample_host) bare_world "/does-not-exist.xyz")
     = StatErr "ENOENT" ∧
   statusCode (response (serve (H:=sample_host) bare_world
                           (request "GET" "/does-not-exist.xyz" None ""))) = 404 ∧
   res_body (response (serve (H:=sample_host) bare_world
                         (request "GET" "/does-not-exist.xyz" None "")))
     = Some "Not Found") ∧
  (stat strict_world (resolved_path (H:=sample_host) strict_world "/index.html/missing")
     = StatErr "ENOTDIR" ∧
   createReadStream strict_world "/srv/public/index.html" = inr "<html>CHEESA</html>" ∧
   statusCode (response (serve (H:=sample_host) strict_world
                           (request "GET" "/index.html/missing" None ""))) = 500 ∧
   res_body (response (serve (H:=sample_host) strict_world
                         (request "GET" "/index.html/missing" None "")))
     = Some "Internal Server Error").
Proof. repeat split; reflexivity. Qed.

Lemma every_request_is_answered_witness :
  exit_code (on_request (H:=sample_host) (world answering)
               (request "GET" "/style.css" None "")) = None ∧
  on_request (H:=sample_host) misconfigured_world (request "GET" "/style.css" None "") =
    {| response := fresh_response; events := []; exit_code := Some 1 |}.
Proof.
  split.
  - apply (proj1 (every_request_is_answered (H:=sample_host) (world answering)
                    (request "GET" "/style.css" None ""))). reflexivity.
  - apply (proj2 (every_request_is_answered (H:=sample_host) misconfigured_world
                    (request "GET" "/style.css" None ""))). reflexivity.
Defined.

Lemma failed_read_is_answered_witness :
  response (serve (H:=sample_host) faulty_world (request "GET" "/does-not-exist.xyz" None ""))
    = plain_response faulty_world (request "GET" "/does-not-exist.xyz" None "")
        404 "Not Found" ∧
  response (serve (H:=sample_host) faulty_world (request "GET" "/docs" None ""))
    = {| res_headers :=
           <["Content-Type" := "text/html"]>
             (cors_headers faulty_world (request "GET" "/docs" None ""));
         statusCode := 404;
         res_body := Some "Not Found" |} ∧
  response (serve (H:=sample_host) faulty_world (request "GET" "/style.css" None ""))
    = {| res_headers :=
           <["Content-Type" := "text/css"]>
             (cors_headers faulty_world (request "GET" "/style.css" None ""));
         statusCode := 200;
         res_body := Some "boNot Found" |}.
Proof.
  split; [|split].
  - destruct (failed_read_is_answered (H:=sample_host) faulty_world
                (request "GET" "/does-not-exist.xyz" None "") "/does-not-exist.xyz"
                "/srv/public/index.html" (Error "EIO: i/o error, read")
                eq_refl eq_refl eq_refl eq_refl) as (_ & Hclosed & _ & _).
    apply Hclosed. reflexivity.
  - destruct (failed_read_is_answered (H:=sample_host) faulty_world
                (request "GET" "/docs" None "") "/docs"
                "/srv/public/docs/index.html" (Error "EIO: i/o error, read")
                eq_refl eq_refl eq_refl eq_refl) as (_ & _ & Hopened & _).
    apply Hopened. reflexivity.
  - destruct (failed_read_is_answered (H:=sample_host) faulty_world
                (request "GET" "/style.css" None "") "/style.css"
                "/srv/public/style.css" (Error "EIO: i/o error, read")
                eq_refl eq_refl eq_refl eq_refl) as (_ & _ & _ & Hpart).
    apply (Hpart "bo"); [reflexivity | discriminate].
Defined.

Lemma missing_key_error_iff_witness :
  startup (H:=sample_host) {[ "GOOGLE_AI_KEY" := "" ]} =
    inl (Error "Missing required environment variable: GOOGLE_AI_KEY") ∧
  (∃ call, startup (H:=sample_host) {[ "GOOGLE_AI_KEY" := "secret" ]} = inr call) ∧
  port (H:=sample_host) {[ "PORT" := "" ]} = Some 3001.
Proof.
  split; [|split].
  - apply (proj1 (missing_key_error_iff (H:=sample_host) {[ "GOOGLE_AI_KEY" := "" ]})).
    right. reflexivity.
  - apply (proj1 (proj2 (missing_key_error_iff (H:=sample_host)
                           {[ "GOOGLE_AI_KEY" := "secret" ]}))).
    exists "secret". split; [reflexivity | discriminate].
  - apply (proj2 (proj2 (missing_key_error_iff (H:=sample_host) {[ "PORT" := "" ]}))).
    reflexivity.
Defined.

Lemma failed_exchange_drops_last_turn_witness :
  conversationHistory (after_submit (H:=page_host) nonzero offline page) = earlier ∧
  conversationHistory
    (on_page (run (H:=page_host) nonzero {| on_page := page; in_flight := [] |}
                [Submit "first"; Submit "second"; Settle 0 (offline "")]))
  = earlier ++ [turn (H:=page_host) "user" (JStr "first")].
Proof.
  destruct (failed_exchange_drops_last_turn (H:=page_host) nonzero (offline ""))
    as (_ & Halone & Hoverlap).
  - left. eexists. reflexivity.
  - split.
    + apply (Halone offline page); [discriminate | reflexivity].
    + apply (Hoverlap page "first" "second"); discriminate.
Defined.

End WorkedMore.
